(** * The agent API of mcp-client: task registry, submit/poll facade, workspace

    A shallow embedding of [src/api.py].  The module keeps one process-wide
    dictionary, [active_tasks], and exposes four HTTP handlers:
    [create_query] (POST /query), [get_result] (GET /result/{query_id}),
    [workspace_info] (GET /workspace_info) and [reset_workspace]
    (POST /reset_workspace).  A fifth function, [run_agent], is scheduled by
    [create_query] as a background task and is the only writer of terminal
    records.

    Python values are embedded as a small value type; the module-level state
    (the dictionary, the queue of scheduled background tasks, the process
    environment, the workspace directory) is threaded explicitly.

    Two callers follow the API: the chat front end of
    [src/flask_github_agent.py], which submits a query and polls for its
    result ([Module Flask], and [chat] for the front end in front of the
    API), and the MCP client of [src/client.py] ([Module MCP]). *)

From Stdlib Require Import String Ascii List.
From stdpp Require Import gmap strings list fin_maps pretty sorting.

Local Open Scope string_scope.
Local Open Scope list_scope.

(** ** Python values

    Dictionaries keep insertion order, so a [dict] literal is an association
    list in the order of the literal. *)

#[local] Unset Elimination Schemes.

Inductive pyval : Type :=
| PyNone
| PyBool (b : bool)
| PyStr (s : string)
| PyList (items : list pyval)
| PyDict (fields : list (string * pyval)).

Abbreviation pydict := (list (string * pyval)).

(** [d.get(k)] *)
Fixpoint dict_get (k : string) (d : pydict) : option pyval :=
  match d with
  | [] => None
  | (k', v) :: d' => if String.eqb k k' then Some v else dict_get k d'
  end.

(** [k in d] *)
Definition dict_has (k : string) (d : pydict) : bool :=
  match dict_get k d with Some _ => true | None => false end.

(** [list(d.keys())] *)
Definition dict_keys (d : pydict) : list string := map fst d.

(** ** The workspace directory

    The directory below [WORKSPACE_DIR] is a finite tree.  A directory holds
    its entries in the order [os.listdir] reports them, which is arbitrary. *)

Inductive node : Type :=
| File
| Dir (entries : list (string * node)).

#[local] Set Elimination Schemes.

(** What sits at the path [WORKSPACE_DIR]: nothing, or a node. *)
Abbreviation workspace_state := (option node).

(** ** Module state *)

Record World : Type := mkWorld {
  (** [WORKSPACE_DIR], fixed when the module is loaded *)
  WORKSPACE_DIR : string;
  (** [active_tasks = {}] *)
  active_tasks : gmap string pydict;
  (** calls [run_agent(query_id, text)] handed to [background_tasks.add_task]
      that have not run yet, oldest first *)
  background : list (string * string);
  (** [os.environ] *)
  environ : gmap string string;
  (** the directory tree at [WORKSPACE_DIR] *)
  workspace : workspace_state;
  (** the queries that were handed to the agent, oldest first *)
  agent_calls : list string
}.

Definition set_task (query_id : string) (record : pydict) (w : World)
    : World :=
  mkWorld (WORKSPACE_DIR w) (<[query_id := record]> (active_tasks w))
          (background w) (environ w) (workspace w) (agent_calls w).

Definition add_task (query_id text : string) (w : World) : World :=
  mkWorld (WORKSPACE_DIR w) (active_tasks w)
          (background w ++ [(query_id, text)])
          (environ w) (workspace w) (agent_calls w).

Definition set_environ (k v : string) (w : World) : World :=
  mkWorld (WORKSPACE_DIR w) (active_tasks w) (background w)
          (<[k := v]> (environ w)) (workspace w) (agent_calls w).

Definition set_workspace (ws : workspace_state) (w : World) : World :=
  mkWorld (WORKSPACE_DIR w) (active_tasks w) (background w) (environ w) ws
          (agent_calls w).

Definition log_agent_call (text : string) (w : World) : World :=
  mkWorld (WORKSPACE_DIR w) (active_tasks w) (background w) (environ w)
          (workspace w) (agent_calls w ++ [text]).

(** ** Task records *)

Definition processing_record : pydict :=
  [("status", PyStr "processing"); ("result", PyNone)].

Definition completed_record (result : string) : pydict :=
  [("status", PyStr "completed"); ("result", PyStr result)].

Definition error_record (message : string) : pydict :=
  [("status", PyStr "error"); ("result", PyStr message)].

Definition not_found_response : pydict :=
  [("status", PyStr "not_found")].

(** A call either returns a value or lets an exception escape; [msg] is the
    [str] of the exception. *)
Inductive handled (A : Type) : Type :=
| Responds (body : A)
| Escapes (msg : string).
Arguments Responds {A} body.
Arguments Escapes {A} msg.

(** ** The agent

    [FastAgent] and the model behind it are outside the repository.  One
    invocation returns text, raises an [Exception], or ends with an
    exception that is not an [Exception]: [SystemExit], with which
    [FastAgent] ends a failed run, [KeyboardInterrupt] or
    [asyncio.CancelledError].  The tools it drives may leave the workspace
    in any state. *)

Inductive agent_outcome : Type :=
| Ordinary (r : handled string)
| Exits (msg : string).

(** An outcome written [Responds result] or [Escapes msg] is the ordinary
    one. *)
#[warnings="-uniform-inheritance"]
Coercion Ordinary : handled >-> agent_outcome.

Record agent_run : Type := mkAgentRun {
  outcome : agent_outcome;
  workspace_after : workspace_state
}.

(** [bool(s)] for the result of [os.getenv]: [None] and the empty string are
    both falsy. *)
Definition truthy (v : option string) : bool :=
  match v with
  | None => false
  | Some "" => false
  | Some _ => true
  end.

Definition API_KEY : string := "ANTHROPIC_API_KEY".

(** [result = await agent_query()] with everything the [try] block does
    before it: the query is handed to the agent, whose tools work in the
    workspace. *)
Definition agent_query (a : agent_run) (query_text : string) (w : World)
    : agent_outcome * World :=
  (outcome a,
   set_workspace (workspace_after a) (log_agent_call query_text w)).

(** [async def run_agent(query_id, query_text)] *)
Definition run_agent (a : agent_run) (query_id query_text : string)
    (w : World) : handled unit * World :=
  let api_key := environ w !! API_KEY in
  if negb (truthy api_key) then
    (Responds tt,
     set_task query_id
       (error_record "Error: ANTHROPIC_API_KEY not found in .env file") w)
  else
    let w1 := set_environ API_KEY (default "" api_key) w in
    (* try: *)
    let '(called, w2) := agent_query a query_text w1 in
    match called with
    | Ordinary (Responds result) =>
        (Responds tt, set_task query_id (completed_record result) w2)
    (* except Exception as e: *)
    | Ordinary (Escapes msg) =>
        (Responds tt, set_task query_id (error_record ("Error: " +:+ msg)) w2)
    (* no clause takes what is not an Exception: it leaves run_agent *)
    | Exits msg => (Escapes msg, w2)
    end.

(** [f"query_{len(active_tasks) + 1}"] *)
Definition fresh_query_id (tasks : gmap string pydict) : string :=
  "query_" +:+ pretty (size tasks + 1).

(** [async def create_query(query, background_tasks)] *)
Definition create_query (text : string) (w : World) : pydict * World :=
  let query_id := fresh_query_id (active_tasks w) in
  let w1 := set_task query_id processing_record w in
  let w2 := add_task query_id text w1 in
  ([("query_id", PyStr query_id); ("status", PyStr "processing")], w2).

(** [async def get_result(query_id)] *)
Definition get_result (query_id : string) (w : World) : pydict :=
  match active_tasks w !! query_id with
  | None => not_found_response
  | Some record => record
  end.

(** ** Paths and listings *)

(** [b.startswith("/")] *)
Definition startswith_sep (b : string) : bool :=
  match b with
  | String c _ => Ascii.eqb c "/"
  | EmptyString => false
  end.

(** [a.endswith("/")] *)
Fixpoint endswith_sep (a : string) : bool :=
  match a with
  | EmptyString => false
  | String c EmptyString => Ascii.eqb c "/"
  | String _ a' => endswith_sep a'
  end.

(** [os.path.join(a, b)] on a POSIX host *)
Definition path_join (a b : string) : string :=
  if startswith_sep b then b
  else if String.eqb a "" || endswith_sep a then a +:+ b
  else a +:+ "/" +:+ b.

(** The order of [str] in Python is the lexicographic order of code points;
    on UTF-8 encoded names it is the lexicographic order of the bytes. *)
Definition str_le (s1 s2 : string) : Prop := String.leb s1 s2 = true.

#[global] Instance str_le_dec : RelDecision str_le :=
  fun s1 s2 => decide (String.leb s1 s2 = true).

(** [sorted(names)] *)
Definition sorted (names : list string) : list string :=
  merge_sort str_le names.

(** [os.listdir(path)] for the directory with these entries *)
Definition listdir (entries : list (string * node)) : list string :=
  map fst entries.

(** The node an entry name resolves to. *)
Fixpoint lookup_entry (item : string) (entries : list (string * node))
    : option node :=
  match entries with
  | [] => None
  | (name, n) :: rest =>
      if String.eqb item name then Some n else lookup_entry item rest
  end.

Definition file_entry (item item_rel_path : string) : pyval :=
  PyDict [("name", PyStr item); ("path", PyStr item_rel_path);
          ("type", PyStr "file")].

Definition directory_entry (item item_rel_path : string)
    (children : list pyval) : pyval :=
  PyDict [("name", PyStr item); ("path", PyStr item_rel_path);
          ("type", PyStr "directory"); ("children", PyList children)].

(** [item_rel_path] of the loop body *)
Definition item_rel_path (rel_path item : string) : string :=
  if String.eqb rel_path "" then item else path_join rel_path item.

(** The body of [get_directory_tree(path, rel_path)], where [entries] is the
    directory that [path] names.  The recursion of the source follows the
    tree downwards; [fuel] bounds its depth. *)
Fixpoint get_directory_tree_upto (fuel : nat)
    (entries : list (string * node)) (rel_path : string) : list pyval :=
  match fuel with
  | O => []
  | S fuel' =>
      let items := sorted (listdir entries) in
      map (fun item =>
             let rel := item_rel_path rel_path item in
             match lookup_entry item entries with
             | Some (Dir sub) =>
                 directory_entry item rel
                   (get_directory_tree_upto fuel' sub rel)
             | _ => file_entry item rel
             end) items
  end.

(** Number of directory levels at and below a node. *)
Fixpoint levels (n : node) : nat :=
  match n with
  | File => 0
  | Dir entries => S (list_max (map (fun e => levels (snd e)) entries))
  end.

(** [get_directory_tree(path, rel_path)]: the tree is finite, so the
    recursion is given as many levels as the directory has. *)
Definition get_directory_tree (entries : list (string * node))
    (rel_path : string) : list pyval :=
  get_directory_tree_upto (levels (Dir entries)) entries rel_path.

(** The lower-case hexadecimal digit of a number below 16. *)
Definition hex_digit (n : nat) : ascii :=
  match n with
  | 0 => "0" | 1 => "1" | 2 => "2" | 3 => "3" | 4 => "4" | 5 => "5"
  | 6 => "6" | 7 => "7" | 8 => "8" | 9 => "9" | 10 => "a" | 11 => "b"
  | 12 => "c" | 13 => "d" | 14 => "e" | _ => "f"
  end%char.

(** Whether a character occurs in a string. *)
Fixpoint occurs (c : ascii) (s : string) : bool :=
  match s with
  | EmptyString => false
  | String c' s' => Ascii.eqb c c' || occurs c s'
  end.

(** One character inside [repr(s)], where [quote] is the quote that [repr]
    has chosen: the backslash and the quote are escaped, and so are the
    control characters; bytes above 127 stand for printable characters and
    are kept. *)
Definition repr_char (quote c : ascii) : string :=
  let backslash := String "092" EmptyString in
  if Ascii.eqb c "092" then backslash +:+ backslash
  else if Ascii.eqb c quote then backslash +:+ String quote EmptyString
  else if Ascii.eqb c "010" then backslash +:+ "n"
  else if Ascii.eqb c "013" then backslash +:+ "r"
  else if Ascii.eqb c "009" then backslash +:+ "t"
  else if (nat_of_ascii c <? 32)%nat || Ascii.eqb c "127" then
    backslash +:+ "x"
    +:+ String (hex_digit (nat_of_ascii c / 16))
          (String (hex_digit (nat_of_ascii c mod 16)) EmptyString)
  else String c EmptyString.

Fixpoint repr_chars (quote : ascii) (s : string) : string :=
  match s with
  | EmptyString => EmptyString
  | String c s' => repr_char quote c +:+ repr_chars quote s'
  end.

(** [repr(s)] for a [str]: in single quotes, or in double quotes when the
    string holds a single quote and no double quote. *)
Definition str_repr (s : string) : string :=
  let quote : ascii :=
    (if occurs "039" s && negb (occurs "034" s) then "034" else "039")%char
  in
  String quote (repr_chars quote s) +:+ String quote EmptyString.

(** [repr(WORKSPACE_DIR)]: the module builds [WORKSPACE_DIR] with [pathlib],
    so on a POSIX host it is a [PosixPath]. *)
Definition path_repr (path : string) : string :=
  "PosixPath(" +:+ str_repr path +:+ ")".

(** [str(e)] for the [NotADirectoryError] of a call on [filename], given
    as the [repr] that the message shows.  The calls of the [os] module
    ([os.listdir], [os.lstat], [os.mkdir]) show the path as a [str];
    [shutil.rmtree] of CPython 3.11 puts the object it was given in the
    exception that [os.scandir] raised, so its message shows the
    [PosixPath]. *)
Definition not_a_directory (filename : string) : string :=
  "[Errno 20] Not a directory: " +:+ filename.

(** [os.path.exists(WORKSPACE_DIR)] *)
Definition path_exists (ws : workspace_state) : bool :=
  match ws with Some _ => true | None => false end.

(** [async def workspace_info()] *)
Definition workspace_info (w : World) : handled pydict :=
  let workspace_exists := path_exists (workspace w) in
  let body file_tree :=
    [("workspace_path", PyStr (WORKSPACE_DIR w));
     ("workspace_exists", PyBool workspace_exists);
     ("files", PyList file_tree)] in
  match workspace w with
  | None => Responds (body [])
  | Some (Dir entries) => Responds (body (get_directory_tree entries ""))
  | Some File => Escapes (not_a_directory (str_repr (WORKSPACE_DIR w)))
  end.

(** ** Resetting the workspace

    [shutil.rmtree] and [os.makedirs] can fail for reasons outside the
    program (permissions, a busy mount).  An [os_run] fixes what the
    operating system does during one call of the handler; a failing
    [rmtree] may have removed part of the tree already. *)

Inductive os_result : Type :=
| OsDone
| OsError (msg : string) (residue : workspace_state).

Record os_run : Type := mkOsRun {
  rmtree_result : os_result;
  makedirs_result : os_result
}.

(** [shutil.rmtree(WORKSPACE_DIR)] *)
Definition rmtree (os : os_run) (dir : string) (ws : workspace_state)
    : handled unit * workspace_state :=
  match ws with
  | Some (Dir _) =>
      match rmtree_result os with
      | OsDone => (Responds tt, None)
      | OsError msg residue => (Escapes msg, residue)
      end
  | Some File => (Escapes (not_a_directory (path_repr dir)), ws)
  | None =>
      (Escapes ("[Errno 2] No such file or directory: " +:+ str_repr dir), ws)
  end.

(** [os.makedirs(WORKSPACE_DIR, exist_ok=True)] *)
Definition makedirs (os : os_run) (dir : string) (ws : workspace_state)
    : handled unit * workspace_state :=
  match ws with
  | Some (Dir _) => (Responds tt, ws)
  | Some File => (Escapes ("[Errno 17] File exists: " +:+ str_repr dir), ws)
  | None =>
      match makedirs_result os with
      | OsDone => (Responds tt, Some (Dir []))
      | OsError msg residue => (Escapes msg, residue)
      end
  end.

Definition reset_success (dir : string) : pydict :=
  [("status", PyStr "success");
   ("message", PyStr ("Workspace at " +:+ dir +:+ " has been reset"))].

Definition reset_error (msg : string) : pydict :=
  [("status", PyStr "error");
   ("message", PyStr ("Error resetting workspace: " +:+ msg))].

(** [async def reset_workspace()] *)
Definition reset_workspace (os : os_run) (w : World) : pydict * World :=
  let dir := WORKSPACE_DIR w in
  (* try: *)
  let '(removed, ws1) :=
    if path_exists (workspace w) then rmtree os dir (workspace w)
    else (Responds tt, workspace w) in
  match removed with
  | Escapes msg => (reset_error msg, set_workspace ws1 w)
  | Responds _ =>
      let '(made, ws2) := makedirs os dir ws1 in
      match made with
      | Escapes msg => (reset_error msg, set_workspace ws2 w)
      | Responds _ => (reset_success dir, set_workspace ws2 w)
      end
  end.

(** ** The server as a transition system

    The handlers are [async def] bodies without an [await], so the event
    loop runs each of them in one piece.  A scheduled [run_agent] writes to
    [active_tasks] at most once, in its last statement; it is one step as
    well, taken whenever the event loop gets to it.  A call that an
    exception leaves writes nothing; the server may go on after it (as it
    does after a cancellation), so the traces go on as well. *)

Inductive request : Type :=
| PostQuery (text : string)
| GetResult (query_id : string)
| GetWorkspaceInfo
| PostResetWorkspace (os : os_run)
(** the event loop runs the scheduled [run_agent(query_id, _)] *)
| RunBackground (query_id : string) (a : agent_run)
(** something outside the server changes the environment or the workspace *)
| Outside (env : gmap string string) (ws : workspace_state).

(** Takes the oldest scheduled call for [query_id] off the queue. *)
Fixpoint take_task (query_id : string) (queue : list (string * string))
    : option (string * list (string * string)) :=
  match queue with
  | [] => None
  | (k, text) :: rest =>
      if String.eqb query_id k then Some (text, rest)
      else match take_task query_id rest with
           | Some (t, rest') => Some (t, (k, text) :: rest')
           | None => None
           end
  end.

Definition set_background (queue : list (string * string)) (w : World)
    : World :=
  mkWorld (WORKSPACE_DIR w) (active_tasks w) queue (environ w) (workspace w)
          (agent_calls w).

Definition step (r : request) (w : World) : World :=
  match r with
  | PostQuery text => snd (create_query text w)
  | GetResult _ => w
  | GetWorkspaceInfo => w
  | PostResetWorkspace os => snd (reset_workspace os w)
  | RunBackground query_id a =>
      match take_task query_id (background w) with
      | Some (text, rest) =>
          snd (run_agent a query_id text (set_background rest w))
      | None => w
      end
  | Outside env ws =>
      mkWorld (WORKSPACE_DIR w) (active_tasks w) (background w) env ws
              (agent_calls w)
  end.

(** The body the client receives, for the requests that have one. *)
Definition respond (r : request) (w : World) : option (handled pydict) :=
  match r with
  | PostQuery text => Some (Responds (fst (create_query text w)))
  | GetResult query_id => Some (Responds (get_result query_id w))
  | GetWorkspaceInfo => Some (workspace_info w)
  | PostResetWorkspace os => Some (Responds (fst (reset_workspace os w)))
  | RunBackground _ _ => None
  | Outside _ _ => None
  end.

Fixpoint exec (trace : list request) (w : World) : World :=
  match trace with
  | [] => w
  | r :: trace' => exec trace' (step r w)
  end.

(** The state right after the module is loaded. *)
Definition booted (w : World) : Prop :=
  active_tasks w = ∅ ∧ background w = [].

Definition reachable (w : World) : Prop :=
  ∃ w0 trace, booted w0 ∧ w = exec trace w0.

(** The identifiers [create_query] has handed out along a trace. *)
Fixpoint issued (trace : list request) (w : World) : list string :=
  match trace with
  | [] => []
  | r :: trace' =>
      match r with
      | PostQuery _ => [fresh_query_id (active_tasks w)]
      | _ => []
      end ++ issued trace' (step r w)
  end.

(** ** Shapes of records *)

Inductive task_record : pydict → Prop :=
| TaskProcessing : task_record processing_record
| TaskCompleted result : task_record (completed_record result)
| TaskError message : task_record (error_record message).

Definition status_of (record : pydict) : option pyval :=
  dict_get "status" record.

Definition terminal (record : pydict) : Prop :=
  (∃ result, record = completed_record result) ∨
  (∃ message, record = error_record message).

Definition query_id_of (n : nat) : string := "query_" +:+ pretty n.

(** What holds of the registry and the queue in every reachable state. *)
Record registry_inv (w : World) : Prop := mkRegistryInv {
  inv_keys : ∀ k, is_Some (active_tasks w !! k) ↔
                  ∃ n : nat, (1 ≤ n ≤ size (active_tasks w))%nat ∧
                             k = query_id_of n;
  inv_queue : NoDup (background w).*1;
  inv_pending : ∀ k, k ∈ (background w).*1 →
                     active_tasks w !! k = Some processing_record;
  inv_shape : ∀ k record, active_tasks w !! k = Some record →
                          task_record record
}.

(** Whether a request is the background run of [query_id]. *)
Definition runs (query_id : string) (r : request) : bool :=
  match r with
  | RunBackground k _ => String.eqb query_id k
  | _ => false
  end.

(** [needle in s] *)
Definition contains (needle s : string) : Prop :=
  ∃ before after, s = before +:+ needle +:+ after.

(** ** Shapes of file trees *)

(** The [name] field of an entry of the file tree. *)
Definition entry_name (e : pyval) : string :=
  match e with
  | PyDict fields =>
      match dict_get "name" fields with
      | Some (PyStr s) => s
      | _ => ""
      end
  | _ => ""
  end.

Definition entry_names (entries : list pyval) : list string :=
  map entry_name entries.

(** An entry of the file tree below the relative path [rel_path]: a file
    entry with the three fields [name], [path], [type], or a directory entry
    with a fourth field [children], itself a sorted list of entries below
    the directory's own path. *)
#[local] Unset Elimination Schemes.

Inductive entry_shape : string → pyval → Prop :=
| ShapeFile rel_path item :
    entry_shape rel_path (file_entry item (item_rel_path rel_path item))
| ShapeDirectory rel_path item children :
    Sorted str_le (entry_names children) →
    Forall (entry_shape (item_rel_path rel_path item)) children →
    entry_shape rel_path
      (directory_entry item (item_rel_path rel_path item) children).

Definition listing_shape (rel_path : string) (entries : list pyval) : Prop :=
  Sorted str_le (entry_names entries) ∧ Forall (entry_shape rel_path) entries.

(** Two nodes that are the same directory state, whatever the order in which
    [os.listdir] reports the entries of each directory. *)
Inductive same_node : node → node → Prop :=
| SameFile : same_node File File
| SameDir entries1 entries2 :
    listdir entries1 ≡ₚ listdir entries2 →
    (∀ item n1,
       lookup_entry item entries1 = Some n1 →
       ∃ n2, lookup_entry item entries2 = Some n2 ∧ same_node n1 n2) →
    same_node (Dir entries1) (Dir entries2).

#[local] Set Elimination Schemes.

(** A world right after the module is loaded, for the examples. *)
Definition fresh_world : World :=
  mkWorld "/srv/agent_workspace" ∅ []
          {[ API_KEY := "sk-test" ]} (Some (Dir [])) [].

(** Two listings of one workspace, for the examples. *)
Definition listing_one : list (string * node) :=
  [("main.py", File);
   ("example-repo",
    Dir [("src", Dir [("app.py", File)]); ("README.md", File)]);
   ("Dockerfile", File)].

Definition listing_two : list (string * node) :=
  [("Dockerfile", File);
   ("example-repo",
    Dir [("README.md", File); ("src", Dir [("app.py", File)])]);
   ("main.py", File)].

(** ** Counting and draining *)

(** Whether a request is a POST /query. *)
Definition is_post_query (r : request) : bool :=
  match r with
  | PostQuery _ => true
  | _ => false
  end.

(** The event loop gets to every scheduled call, oldest first; [agents]
    fixes what the agent does for each identifier. *)
Definition run_all (agents : string → agent_run)
    (queue : list (string * string)) : list request :=
  map (fun call => RunBackground call.1 (agents call.1)) queue.

(** The identifier whose [run_agent] call this step runs and which the
    agent's exception leaves without writing a record, if any. *)
Definition abandoned_by (r : request) (w : World) : list string :=
  match r with
  | RunBackground query_id a =>
      match take_task query_id (background w) with
      | Some (text, rest) =>
          match fst (run_agent a query_id text (set_background rest w)) with
          | Escapes _ => [query_id]
          | Responds _ => []
          end
      | None => []
      end
  | _ => []
  end.

(** The identifiers whose [run_agent] call was left in this way along a
    trace. *)
Fixpoint abandoned (trace : list request) (w : World) : list string :=
  match trace with
  | [] => []
  | r :: trace' => abandoned_by r w ++ abandoned trace' (step r w)
  end.

(** A record that is [processing] with no call scheduled for it. *)
Definition orphaned (w : World) (k : string) : Prop :=
  active_tasks w !! k = Some processing_record ∧ k ∉ (background w).*1.

(** ** Names and paths *)

(** ["/" in s] *)
Fixpoint has_sep (s : string) : bool :=
  match s with
  | EmptyString => false
  | String c s' => Ascii.eqb c "/" || has_sep s'
  end.

(** What a file system accepts as the name of an entry: not empty, and
    without a separator. *)
Definition valid_name (name : string) : bool :=
  negb (String.eqb name "") && negb (has_sep name).

(** Every name at and below a node is a valid name. *)
Fixpoint valid_names (n : node) : bool :=
  match n with
  | File => true
  | Dir entries =>
      forallb (fun e => valid_name (fst e) && valid_names (snd e)) entries
  end.

#[local] Unset Elimination Schemes.

(** An entry whose [path] is [prefix] followed by its name, with the paths
    of its children formed in the same way below [path/]. *)
Inductive paths_under : string → pyval → Prop :=
| PathsFile prefix name :
    paths_under prefix (file_entry name (prefix +:+ name))
| PathsDirectory prefix name children :
    Forall (paths_under (prefix +:+ name +:+ "/")) children →
    paths_under prefix (directory_entry name (prefix +:+ name) children).

#[local] Set Elimination Schemes.

(** The prefix of the paths below the relative path [rel_path]. *)
Definition prefix_of (rel_path : string) : string :=
  if String.eqb rel_path "" then "" else rel_path +:+ "/".

(** ** The chat front end

    [src/flask_github_agent.py] serves the browser and talks to the API
    above over HTTP with [requests].  What a call of [requests.get] or
    [requests.post] gives back is a parameter of the handlers. *)

(** The outcome of one HTTP call: a response with its status code and what
    [response.json()] does (it returns a JSON object, as every body of the
    API is, or raises), a [requests.exceptions.ConnectionError], or any
    other exception. *)
Inductive http_reply : Type :=
| HttpReply (status_code : nat) (json : handled pydict)
| HttpConnectionError
| HttpException (msg : string).

(** The Flask session: the [messages] key, if set, and [session.modified]. *)
Record Session : Type := mkSession {
  messages : option (list pyval);
  modified : bool
}.

(** What a handler did besides answering, in order. *)
Inductive event : Type :=
| SentPostQuery (text : string)
| SentGetResult (query_id : pyval)
| Slept.

(** How the [try] block of a handler ends: with an answer, or in one of the
    two [except] clauses. *)
Inductive attempt : Type :=
| Answered (status : string) (message : pyval)
| ConnectionRefused
| Failed (msg : string).

(** What [query] leaves behind: the HTTP status and JSON body sent to the
    browser, the session, and what it did on the way. *)
Record flask_result : Type := mkFlaskResult {
  response_code : nat;
  response_body : pydict;
  session_after : Session;
  events : list event
}.

(** [bool(v)] *)
Definition py_truthy (v : pyval) : bool :=
  match v with
  | PyNone => false
  | PyBool b => b
  | PyStr s => negb (String.eqb s "")
  | PyList items => match items with [] => false | _ => true end
  | PyDict fields => match fields with [] => false | _ => true end
  end.

(** [v == s] for the result [v] of [d.get(k)] and a string literal [s] *)
Definition str_eq (v : option pyval) (s : string) : bool :=
  match v with
  | Some (PyStr s') => String.eqb s' s
  | _ => false
  end.

(** [v[:100]], which raises [TypeError] on a value that has no slices (the
    wording for a [dict] is that of CPython up to 3.11). *)
Definition slice_100 (v : pyval) : handled pyval :=
  match v with
  | PyStr s => Responds (PyStr (substring 0 100 s))
  | PyList items => Responds (PyList (take 100 items))
  | PyNone => Escapes "'NoneType' object is not subscriptable"
  | PyBool _ => Escapes "'bool' object is not subscriptable"
  | PyDict _ => Escapes "unhashable type: 'slice'"
  end.

Definition chat_message (role : string) (content : pyval) : pyval :=
  PyDict [("role", PyStr role); ("content", content)].

(** [session['messages'].append(m)]; the key is set wherever the source
    appends. *)
Definition append_message (m : pyval) (s : Session) : Session :=
  mkSession ((fun l => l ++ [m]) <$> messages s) (modified s).

(** [session.modified = True] *)
Definition set_modified (s : Session) : Session :=
  mkSession (messages s) true.

(** [if 'messages' not in session: session['messages'] = []]; setting a key
    marks the session as modified. *)
Definition ensure_messages (s : Session) : Session :=
  match messages s with
  | None => mkSession (Some []) true
  | Some _ => s
  end.

Module Flask.

Definition max_retries : nat := 60.

(** One round of the polling loop of [query], up to [time.sleep(1)]:
    [Some] when the round returns or raises, [None] when the loop goes
    on. *)
Definition poll_once (reply : http_reply) : option attempt :=
  match reply with
  | HttpConnectionError => Some ConnectionRefused
  | HttpException msg => Some (Failed msg)
  | HttpReply status_code json =>
      if negb (Nat.eqb status_code 200) then
        Some (Answered "error"
                (PyStr ("Error: Server returned status code "
                        +:+ pretty status_code
                        +:+ " when fetching results")))
      else
        match json with
        | Escapes msg => Some (Failed msg)
        | Responds result_data =>
            let status := dict_get "status" result_data in
            if str_eq status "completed" then
              let result :=
                default (PyStr "No result returned")
                        (dict_get "result" result_data) in
              match slice_100 result with
              | Escapes msg => Some (Failed msg)
              | Responds _ => Some (Answered "success" result)
              end
            else if str_eq status "error" then
              Some (Answered "error"
                      (default
                         (PyStr
                            "An error occurred but no details were provided")
                         (dict_get "result" result_data)))
            else if str_eq status "not_found" then
              Some (Answered "error"
                      (PyStr "Error: Query not found on server"))
            else None
        end
  end.

(** [for retry_count in range(max_retries): ...] and the time-out after it;
    [retries] rounds are left and [retry_count] have been made. *)
Fixpoint poll_for_result (retries retry_count : nat) (query_id : pyval)
    (poll_reply : nat → http_reply) : attempt * list event :=
  match retries with
  | O =>
      (Answered "error"
         (PyStr "Error: Timed out waiting for response from agent"), [])
  | S retries' =>
      match poll_once (poll_reply retry_count) with
      | Some a => (a, [SentGetResult query_id])
      | None =>
          let '(a, evs) :=
            poll_for_result retries' (S retry_count) query_id poll_reply in
          (a, SentGetResult query_id :: Slept :: evs)
      end
  end.

(** The [try] block of [query]. *)
Definition send_and_poll (user_query : string) (post_reply : http_reply)
    (poll_reply : nat → http_reply) : attempt * list event :=
  match post_reply with
  | HttpConnectionError => (ConnectionRefused, [SentPostQuery user_query])
  | HttpException msg => (Failed msg, [SentPostQuery user_query])
  | HttpReply status_code json =>
      if negb (Nat.eqb status_code 200) then
        (Answered "error"
           (PyStr ("Error: Server returned status code "
                   +:+ pretty status_code)),
         [SentPostQuery user_query])
      else
        match json with
        | Escapes msg => (Failed msg, [SentPostQuery user_query])
        | Responds data =>
            let query_id := default PyNone (dict_get "query_id" data) in
            if negb (py_truthy query_id) then
              (Answered "error"
                 (PyStr "Error: Failed to get query ID from server"),
               [SentPostQuery user_query])
            else
              let '(a, evs) :=
                poll_for_result max_retries 0 query_id poll_reply in
              (a, SentPostQuery user_query :: evs)
        end
  end.

(** [def query()], for the form field [query] of the request. *)
Definition query (user_query : string) (post_reply : http_reply)
    (poll_reply : nat → http_reply) (s : Session) : flask_result :=
  if String.eqb user_query "" then
    mkFlaskResult 400 [("error", PyStr "Query cannot be empty")] s []
  else
    let s1 := ensure_messages s in
    let s2 := append_message (chat_message "user" (PyStr user_query)) s1 in
    let '(a, evs) := send_and_poll user_query post_reply poll_reply in
    let '(status, message) :=
      match a with
      | Answered status message => (status, message)
      | ConnectionRefused =>
          ("error",
           PyStr ("Error: Could not connect to the agent server. "
                  +:+ "Make sure it's running at http://127.0.0.1:8000"))
      | Failed msg => ("error", PyStr ("Error: " +:+ msg))
      end in
    mkFlaskResult 200 [("status", PyStr status); ("message", message)]
      (set_modified (append_message (chat_message "assistant" message) s2))
      evs.

(** [def workspace_info()] *)
Definition workspace_info (reply : http_reply) : pydict :=
  match reply with
  | HttpConnectionError =>
      [("error", PyStr "Could not connect to the agent server")]
  | HttpException msg => [("error", PyStr msg)]
  | HttpReply status_code json =>
      if Nat.eqb status_code 200 then
        match json with
        | Responds body => body
        | Escapes msg => [("error", PyStr msg)]
        end
      else
        [("error",
          PyStr ("Server returned status code " +:+ pretty status_code))]
  end.

(** [def reset_workspace()] *)
Definition reset_workspace (reply : http_reply) : pydict :=
  let error error_msg :=
    [("status", PyStr "error"); ("message", PyStr error_msg)] in
  match reply with
  | HttpConnectionError =>
      error "Error: Could not connect to the agent server"
  | HttpException msg => error ("Error: " +:+ msg)
  | HttpReply status_code json =>
      if Nat.eqb status_code 200 then
        match json with
        | Responds data => data
        | Escapes msg => error ("Error: " +:+ msg)
        end
      else
        error ("Error: Server returned status code " +:+ pretty status_code)
  end.

(** [def clear_chat()] *)
Definition clear_chat (s : Session) : pydict * Session :=
  ([("status", PyStr "success")], mkSession (Some []) true).

End Flask.

(** ** The front end in front of the API server *)

(** How the FastAPI application answers: the body of the handler with
    status 200, or status 500 with a body that is not JSON when the handler
    lets an exception escape. *)
Definition serve (r : handled pydict) : http_reply :=
  match r with
  | Responds body => HttpReply 200 (Responds body)
  | Escapes _ =>
      HttpReply 500 (Escapes "Expecting value: line 1 column 1 (char 0)")
  end.

(** The server while the front end polls: [w] is its state after the
    POST, and [between n] are the steps it takes before the poll number
    [n]. *)
Fixpoint world_at_poll (between : nat → list request) (w : World) (n : nat)
    : World :=
  match n with
  | O => exec (between O) w
  | S n' => exec (between n) (world_at_poll between w n')
  end.

(** [query] of the front end against the API server in state [w]: the POST
    is handled by [create_query], every poll by [get_result] in the state
    the server has reached by then. *)
Definition chat (user_query : string) (between : nat → list request)
    (w : World) (s : Session) : flask_result :=
  let query_id := fresh_query_id (active_tasks w) in
  let w1 := snd (create_query user_query w) in
  Flask.query user_query
    (serve (Responds (fst (create_query user_query w))))
    (fun n =>
       serve (Responds (get_result query_id (world_at_poll between w1 n))))
    s.

Definition is_get_result (e : event) : bool :=
  match e with
  | SentGetResult _ => true
  | _ => false
  end.

Definition is_sleep (e : event) : bool :=
  match e with
  | Slept => true
  | _ => false
  end.

(** A schedule for the examples: the event loop runs the call of
    [query_1] before the third poll, and the agent returns a listing. *)
Definition third_poll_schedule (n : nat) : list request :=
  if Nat.eqb n 2
  then [RunBackground "query_1" (mkAgentRun (Responds "a.txt") None)]
  else [].

(** A schedule on which the server is busy with other requests only. *)
Definition busy_schedule (n : nat) : list request :=
  [GetResult "query_1"; PostQuery "another"; GetWorkspaceInfo].

(** ** The MCP client

    [src/client.py]: [MCPHttpClient] keeps an [aiohttp] session to an MCP
    server and drives one exchange with the language model per query.  What
    the server and the model answer is a parameter of the methods. *)

(** ["sep".join(items)] *)
Fixpoint join (sep : string) (items : list string) : string :=
  match items with
  | [] => ""
  | [item] => item
  | item :: rest => item +:+ sep +:+ join sep rest
  end.

Module MCP.

(** The exceptions of the client, by the place that raises them; [Other]
    is any exception of [aiohttp], of the model's SDK or of the
    interpreter, with its message. *)
Inductive error : Type :=
| NotConnected
| FailedToInitialize (error_text : string)
| UnexpectedResponseType (type : pyval)
| FailedToListTools (error_text : string)
| FailedToExecuteTool (error_text : string)
| ToolError (message : pyval)
| Other (msg : string).

Inductive result (A : Type) : Type :=
| Return (a : A)
| Raise (e : error).
Arguments Return {A} a.
Arguments Raise {A} e.

(** The outcome of [session.get] or [session.post]: a response with its
    status, what [response.text()] and [response.json()] do, or an
    exception. *)
Inductive aio_reply : Type :=
| AioResponse (status : nat) (text : handled string) (json : handled pydict)
| AioError (msg : string).

(** A block of [response.content] of the model. *)
Inductive block : Type :=
| TextBlock (text : string)
| ToolUseBlock (id name : string) (input : pyval)
| OtherBlock.

(** What the client sends, in order. *)
Inductive call : Type :=
| ModelCall (messages : list pyval) (tools : option (list pyval))
| ToolCall (tool_name : string) (arguments : pyval).

(** The client object; [opened] and [closed] count the [aiohttp] sessions
    it has created and closed. *)
Record MCPHttpClient : Type := mkClient {
  server_url : string;
  session : bool;
  tools : pyval;
  opened : nat;
  closed : nat
}.

(** [MCPHttpClient(server_url)] *)
Definition init (server_url : string) : MCPHttpClient :=
  mkClient server_url false (PyList []) 0 0.

(** [d.get(k)], which is [None] for a missing key *)
Definition get (k : string) (d : pydict) : pyval :=
  default PyNone (dict_get k d).

(** [v != s] for a string literal [s] *)
Definition differs (v : pyval) (s : string) : bool :=
  match v with
  | PyStr s' => negb (String.eqb s' s)
  | _ => true
  end.

(** One of the two exchanges of [connect]: the status check, the JSON body
    and the check of its [type]. *)
Definition exchange (reply : aio_reply) (failed : string → error)
    (expected : string) : result pydict :=
  match reply with
  | AioError msg => Raise (Other msg)
  | AioResponse status text json =>
      if negb (Nat.eqb status 200) then
        match text with
        | Responds error_text => Raise (failed error_text)
        | Escapes msg => Raise (Other msg)
        end
      else
        match json with
        | Escapes msg => Raise (Other msg)
        | Responds data =>
            if differs (get "type" data) expected
            then Raise (UnexpectedResponseType (get "type" data))
            else Return data
        end
  end.

(** [async def connect(self)] *)
Definition connect (initialize_reply list_tools_reply : aio_reply)
    (c : MCPHttpClient) : result pyval * MCPHttpClient :=
  (* self.session = aiohttp.ClientSession() *)
  let c1 := mkClient (server_url c) true (tools c) (S (opened c)) (closed c) in
  (* except Exception as e: close the session and raise e *)
  let fail e :=
    (Raise e,
     mkClient (server_url c1) false (tools c1) (opened c1) (S (closed c1))) in
  match exchange initialize_reply FailedToInitialize "initialize_result" with
  | Raise e => fail e
  | Return _ =>
      match exchange list_tools_reply FailedToListTools "list_tools_result"
      with
      | Raise e => fail e
      | Return data =>
          let found := default (PyList []) (dict_get "tools" data) in
          (Return found,
           mkClient (server_url c1) true found (opened c1) (closed c1))
      end
  end.

(** [async def close(self)] *)
Definition close (c : MCPHttpClient) : MCPHttpClient :=
  if session c
  then mkClient (server_url c) false (tools c) (opened c) (S (closed c))
  else c.

(** [async def call_tool(self, tool_name, arguments)]; the second
    component tells whether the request was sent. *)
Definition call_tool (reply : aio_reply) (c : MCPHttpClient)
    : result pydict * bool :=
  if negb (session c) then (Raise NotConnected, false)
  else
    (match reply with
     | AioError msg => Raise (Other msg)
     | AioResponse status text json =>
         if negb (Nat.eqb status 200) then
           match text with
           | Responds error_text => Raise (FailedToExecuteTool error_text)
           | Escapes msg => Raise (Other msg)
           end
         else
           match json with
           | Escapes msg => Raise (Other msg)
           | Responds data =>
               if differs (get "type" data) "error" then Return data
               else Raise (ToolError
                             (default (PyStr "Unknown error")
                                      (dict_get "message" data)))
           end
     end, true).

(** The name of the type of a value, as the interpreter prints it. *)
Definition type_name (v : pyval) : string :=
  match v with
  | PyNone => "NoneType"
  | PyBool _ => "bool"
  | PyStr _ => "str"
  | PyList _ => "list"
  | PyDict _ => "dict"
  end.

(** One element of the comprehension over [self.tools]; [tool.get] exists
    on a [dict] only. *)
Definition tool_entry (tool : pyval) : result pyval :=
  match tool with
  | PyDict fields =>
      Return (PyDict [("name", get "name" fields);
                      ("description", get "description" fields);
                      ("input_schema", get "inputSchema" fields)])
  | _ =>
      Raise (Other ("'" +:+ type_name tool
                    +:+ "' object has no attribute 'get'"))
  end.

Fixpoint tool_entries (items : list pyval) : result (list pyval) :=
  match items with
  | [] => Return []
  | tool :: rest =>
      match tool_entry tool with
      | Raise e => Raise e
      | Return entry =>
          match tool_entries rest with
          | Raise e => Raise e
          | Return entries => Return (entry :: entries)
          end
      end
  end.

(** [available_tools = [... for tool in self.tools]]: iterating a [str] or
    a [dict] yields strings, and [None] and [bool] cannot be iterated. *)
Definition available_tools (tools : pyval) : result (list pyval) :=
  match tools with
  | PyList items => tool_entries items
  | PyStr s =>
      if String.eqb s "" then Return []
      else Raise (Other "'str' object has no attribute 'get'")
  | PyDict fields =>
      match fields with
      | [] => Return []
      | _ => Raise (Other "'str' object has no attribute 'get'")
      end
  | PyNone => Raise (Other "'NoneType' object is not iterable")
  | PyBool _ => Raise (Other "'bool' object is not iterable")
  end.

Definition tool_use_message (id tool_name : string) (tool_args : pyval)
    : pyval :=
  PyDict [("role", PyStr "assistant");
          ("content",
           PyList [PyDict [("type", PyStr "tool_use"); ("id", PyStr id);
                           ("name", PyStr tool_name);
                           ("input", tool_args)]])].

Definition tool_result_message (id : string) (tool_result : pyval) : pyval :=
  PyDict [("role", PyStr "user");
          ("content",
           PyList [PyDict [("type", PyStr "tool_result");
                           ("tool_use_id", PyStr id);
                           ("content", tool_result)]])].

(** The texts of the text blocks of a response. *)
Fixpoint texts (content : list block) : list string :=
  match content with
  | [] => []
  | TextBlock text :: rest => text :: texts rest
  | _ :: rest => texts rest
  end.

(** The local variables of [process_query] and what it has sent:
    [model_calls] and [tool_calls] count the answers consumed from the
    model and from the server. *)
Record locals : Type := mkLocals {
  messages : list pyval;
  final_text : list string;
  model_calls : nat;
  tool_calls : nat;
  sent : list call
}.

(** [for content in response.content: ...] over the content of the first
    response; [claude n] is the answer to the model call number [n] and
    [tool_reply n] the answer to the tool call number [n]. *)
Fixpoint process_content (content : list block)
    (claude : nat → result (list block)) (tool_reply : nat → aio_reply)
    (c : MCPHttpClient) (l : locals) : option error * locals :=
  match content with
  | [] => (None, l)
  | TextBlock text :: rest =>
      process_content rest claude tool_reply c
        (mkLocals (messages l) (final_text l ++ [text]) (model_calls l)
                  (tool_calls l) (sent l))
  | OtherBlock :: rest => process_content rest claude tool_reply c l
  | ToolUseBlock id tool_name tool_args :: rest =>
      let '(called, was_sent) := call_tool (tool_reply (tool_calls l)) c in
      let l1 :=
        if was_sent
        then mkLocals (messages l) (final_text l) (model_calls l)
                      (S (tool_calls l))
                      (sent l ++ [ToolCall tool_name tool_args])
        else l in
      match called with
      | Raise e => (Some e, l1)
      | Return result =>
          let tool_result :=
            default (PyStr "No content in response")
                    (dict_get "content" result) in
          let messages2 :=
            messages l ++ [tool_use_message id tool_name tool_args;
                           tool_result_message id tool_result] in
          let l2 :=
            mkLocals messages2
                     (final_text l
                      ++ ["[Called tool " +:+ tool_name +:+ "]"])
                     (S (model_calls l)) (tool_calls l1)
                     (sent l1 ++ [ModelCall messages2 None]) in
          match claude (model_calls l) with
          | Raise e => (Some e, l2)
          | Return response =>
              process_content rest claude tool_reply c
                (mkLocals (messages l2)
                          (final_text l2 ++ texts response)
                          (model_calls l2) (tool_calls l2) (sent l2))
          end
      end
  end.

(** [async def process_query(self, query)]: the text it returns or the
    exception it raises, and the calls it has sent. *)
Definition process_query (query : string)
    (claude : nat → result (list block)) (tool_reply : nat → aio_reply)
    (c : MCPHttpClient) : result string * list call :=
  if negb (session c) then (Raise NotConnected, [])
  else
    let messages0 :=
      [PyDict [("role", PyStr "user"); ("content", PyStr query)]] in
    match available_tools (tools c) with
    | Raise e => (Raise e, [])
    | Return available =>
        let sent0 := [ModelCall messages0 (Some available)] in
        match claude 0 with
        | Raise e => (Raise e, sent0)
        | Return response =>
            let '(failure, l) :=
              process_content response claude tool_reply c
                (mkLocals messages0 [] 1 0 sent0) in
            match failure with
            | Some e => (Raise e, sent l)
            | None =>
                (Return (join (String "010" (String "010" ""))
                              (final_text l)),
                 sent l)
            end
        end
    end.

End MCP.

(** Counting the blocks and the calls. *)
Definition is_tool_use (b : MCP.block) : bool :=
  match b with
  | MCP.ToolUseBlock _ _ _ => true
  | _ => false
  end.

Definition is_model_call (c : MCP.call) : bool :=
  match c with
  | MCP.ModelCall _ _ => true
  | _ => false
  end.

(** The tool calls that the tool-use blocks of a response ask for. *)
Fixpoint requested_tools (content : list MCP.block) : list MCP.call :=
  match content with
  | [] => []
  | MCP.ToolUseBlock _ tool_name tool_args :: rest =>
      MCP.ToolCall tool_name tool_args :: requested_tools rest
  | _ :: rest => requested_tools rest
  end.

(** The calls that [process_query] sends after its first model call, for
    the blocks [content] of the first response: nothing for a block that is
    not a tool-use block; for a tool-use block the call of its tool,
    answered with [data] by the call number [n] to the server, and then
    one model call without tools, whose messages are the messages so far
    followed by the block's [tool_use] message and the [tool_result]
    message with the content of [data]. *)
Inductive follow_ups (tool_reply : nat → MCP.aio_reply)
    (c : MCP.MCPHttpClient)
    : nat → list pyval → list MCP.block → list MCP.call → Prop :=
| FollowNil n messages : follow_ups tool_reply c n messages [] []
| FollowText n messages text rest calls :
    follow_ups tool_reply c n messages rest calls →
    follow_ups tool_reply c n messages (MCP.TextBlock text :: rest) calls
| FollowOther n messages rest calls :
    follow_ups tool_reply c n messages rest calls →
    follow_ups tool_reply c n messages (MCP.OtherBlock :: rest) calls
| FollowTool n messages id tool_name tool_args data rest calls :
    fst (MCP.call_tool (tool_reply n) c) = MCP.Return data →
    follow_ups tool_reply c (S n)
      (messages
       ++ [MCP.tool_use_message id tool_name tool_args;
           MCP.tool_result_message id
             (default (PyStr "No content in response")
                      (dict_get "content" data))])
      rest calls →
    follow_ups tool_reply c n messages
      (MCP.ToolUseBlock id tool_name tool_args :: rest)
      (MCP.ToolCall tool_name tool_args
       :: MCP.ModelCall
            (messages
             ++ [MCP.tool_use_message id tool_name tool_args;
                 MCP.tool_result_message id
                   (default (PyStr "No content in response")
                            (dict_get "content" data))])
            None
       :: calls).

(** The tool calls among the calls sent. *)
Fixpoint tool_calls_of (calls : list MCP.call) : list MCP.call :=
  match calls with
  | [] => []
  | MCP.ToolCall tool_name tool_args :: rest =>
      MCP.ToolCall tool_name tool_args :: tool_calls_of rest
  | _ :: rest => tool_calls_of rest
  end.

(** Replies and a response for the examples. *)
Definition ok_initialize : MCP.aio_reply :=
  MCP.AioResponse 200 (Responds "")
    (Responds [("type", PyStr "initialize_result")]).

Definition ok_list_tools : MCP.aio_reply :=
  MCP.AioResponse 200 (Responds "")
    (Responds [("type", PyStr "list_tools_result");
               ("tools", PyList [PyDict [("name", PyStr "clone")]])]).

Definition connected_client : MCP.MCPHttpClient :=
  MCP.mkClient "http://localhost:8000" true
    (PyList [PyDict [("name", PyStr "clone")]]) 1 0.

Definition two_tool_response : list MCP.block :=
  [MCP.TextBlock "Cloning."; MCP.ToolUseBlock "t1" "clone" (PyDict []);
   MCP.OtherBlock; MCP.ToolUseBlock "t2" "build" (PyDict [])].

(** ** The order on names *)

#[global] Instance str_le_total : Total str_le.
Proof. intros s1 s2. apply String.leb_total. Qed.

#[global] Instance str_le_antisym : AntiSymm (=) str_le.
Proof. intros s1 s2. apply String.leb_antisym. Qed.

#[global] Instance str_le_trans : Transitive str_le.
Proof.
  unfold str_le, String.leb. intros s1.
  induction s1 as [|a s1 IH]; intros [|b s2] [|c s3]; simpl; try done.
  unfold Ascii.compare.
  destruct (N.compare_spec (N_of_ascii a) (N_of_ascii b)) as [Hab|Hab|Hab],
           (N.compare_spec (N_of_ascii b) (N_of_ascii c)) as [Hbc|Hbc|Hbc],
           (N.compare_spec (N_of_ascii a) (N_of_ascii c)) as [Hac|Hac|Hac];
    try done; try lia.
  apply IH.
Qed.

(** ** The module on small inputs *)

Example path_join_plain : path_join "example-repo" "src" = "example-repo/src".
Proof. reflexivity. Qed.

Example path_join_trailing_sep :
  path_join "example-repo/" "src" = "example-repo/src".
Proof. reflexivity. Qed.

Example path_join_absolute : path_join "example-repo" "/etc" = "/etc".
Proof. reflexivity. Qed.

Example sorted_by_code_point :
  sorted ["main.py"; "Dockerfile"; "example-repo"; "README.md"]
    = ["Dockerfile"; "README.md"; "example-repo"; "main.py"].
Proof. vm_compute. reflexivity. Qed.

Example first_query :
  fst (create_query "list files" fresh_world)
    = [("query_id", PyStr "query_1"); ("status", PyStr "processing")].
Proof. vm_compute. reflexivity. Qed.

Example poll_after_completion :
  get_result "query_1"
    (exec [PostQuery "list files";
           RunBackground "query_1" (mkAgentRun (Responds "a.txt") None)]
          fresh_world)
    = [("status", PyStr "completed"); ("result", PyStr "a.txt")].
Proof. vm_compute. reflexivity. Qed.

Example reset_populated :
  reset_workspace (mkOsRun OsDone OsDone)
                  (set_workspace (Some (Dir listing_one)) fresh_world)
    = ([("status", PyStr "success");
        ("message",
         PyStr "Workspace at /srv/agent_workspace has been reset")],
       fresh_world).
Proof. reflexivity. Qed.

Example reset_on_plain_file :
  fst (reset_workspace (mkOsRun OsDone OsDone)
                       (set_workspace (Some File) fresh_world))
    = [("status", PyStr "error");
       ("message",
        PyStr ("Error resetting workspace: "
               +:+ "[Errno 20] Not a directory: "
               +:+ "PosixPath('/srv/agent_workspace')"))].
Proof. reflexivity. Qed.

Example workspace_info_on_plain_file :
  workspace_info (set_workspace (Some File) fresh_world)
    = Escapes "[Errno 20] Not a directory: '/srv/agent_workspace'".
Proof. reflexivity. Qed.

(** [repr("it's")] is in double quotes, and [repr] escapes a backslash. *)
Example str_repr_single_quote :
  str_repr "it's" = String "034" ("it's" +:+ String "034" EmptyString).
Proof. reflexivity. Qed.

Example str_repr_backslash :
  str_repr (String "092" "n") = "'" +:+ String "092" (String "092" "n'").
Proof. reflexivity. Qed.

(** ** Identifiers *)

Lemma query_id_of_inj n m : query_id_of n = query_id_of m → n = m.
Proof.
  unfold query_id_of. intros H.
  apply (inj (String.app "query_")) in H. by apply (inj pretty) in H.
Qed.

Lemma fresh_query_id_eq tasks :
  fresh_query_id tasks = query_id_of (size tasks + 1).
Proof. reflexivity. Qed.

Section registry_facts.
Context (w : World) (Hinv : registry_inv w).

Lemma fresh_query_id_unused :
  active_tasks w !! fresh_query_id (active_tasks w) = None.
Proof.
  destruct (active_tasks w !! _) eqn:E; [|done].
  assert (is_Some (active_tasks w !! fresh_query_id (active_tasks w))) as Hs
    by eauto.
  apply (inv_keys w Hinv) in Hs as (n & Hn & Heq).
  rewrite fresh_query_id_eq in Heq. apply query_id_of_inj in Heq. lia.
Qed.

Lemma pending_is_known k :
  k ∈ (background w).*1 → is_Some (active_tasks w !! k).
Proof. intros H. rewrite (inv_pending w Hinv k H). eauto. Qed.

Lemma fresh_query_id_not_pending :
  fresh_query_id (active_tasks w) ∉ (background w).*1.
Proof.
  intros H. apply pending_is_known in H.
  rewrite fresh_query_id_unused in H. by destruct H.
Qed.
End registry_facts.

(** ** The queue *)

Lemma take_task_split query_id queue text rest :
  take_task query_id queue = Some (text, rest) →
  ∃ before after,
    queue = before ++ (query_id, text) :: after ∧
    rest = before ++ after ∧
    query_id ∉ before.*1.
Proof.
  revert text rest. induction queue as [|[k t] queue IH]; intros text rest.
  - discriminate.
  - simpl. destruct (String.eqb_spec query_id k) as [->|Hne].
    + intros [= <- <-]. exists [], queue. split_and!; [done..|].
      simpl. apply not_elem_of_nil.
    + destruct (take_task query_id queue) as [[t' rest']|] eqn:E; [|done].
      intros [= <- <-]. destruct (IH _ _ eq_refl) as (b & a & -> & -> & Hb).
      exists ((k, t) :: b), a. split_and!; [done..|].
      simpl. rewrite not_elem_of_cons. done.
Qed.

Lemma take_task_none query_id queue :
  take_task query_id queue = None ↔ query_id ∉ queue.*1.
Proof.
  induction queue as [|[k t] queue IH]; simpl.
  - split; [intros _; apply not_elem_of_nil|done].
  - rewrite not_elem_of_cons. destruct (String.eqb_spec query_id k) as [->|Hne].
    + split; [done|]. intros [? _]. done.
    + destruct (take_task query_id queue) as [[t' rest']|] eqn:E.
      * split; [done|]. intros [_ H]. apply IH in H. done.
      * split; [|done]. intros _. split; [done|]. by apply IH.
Qed.

(** ** The invariant holds in every reachable state *)

Lemma booted_inv w : booted w → registry_inv w.
Proof.
  intros [Ht Hb]. split.
  - intros k. rewrite Ht, lookup_empty, map_size_empty. split.
    + intros [? ?]. done.
    + intros (n & Hn & _). lia.
  - rewrite Hb. constructor.
  - intros k. rewrite Hb. simpl. intros H. by apply not_elem_of_nil in H.
  - intros k record. rewrite Ht, lookup_empty. done.
Qed.

Lemma create_query_inv text w :
  registry_inv w → registry_inv (snd (create_query text w)).
Proof.
  intros Hinv.
  pose proof (fresh_query_id_unused w Hinv) as Hfresh.
  pose proof (fresh_query_id_not_pending w Hinv) as Hnp.
  split; simpl.
  - intros k. rewrite (map_size_insert_None _ _ _ Hfresh).
    rewrite lookup_insert. case_decide as Hk.
    + subst k. split; [|eauto]. intros _.
      exists (size (active_tasks w) + 1). split; [lia|done].
    + rewrite (inv_keys w Hinv k). split.
      * intros (n & Hn & ->). exists n. split; [lia|done].
      * intros (n & Hn & ->). exists n. split; [|done].
        assert (n ≠ size (active_tasks w) + 1) by (intros ->; done). lia.
  - rewrite fmap_app. simpl. apply NoDup_app. split_and!.
    + apply (inv_queue w Hinv).
    + intros k Hk. rewrite list_elem_of_singleton. intros ->. done.
    + apply NoDup_singleton.
  - intros k. rewrite fmap_app, elem_of_app. simpl.
    rewrite list_elem_of_singleton. intros [Hk| ->].
    + rewrite lookup_insert_ne; [by apply (inv_pending w Hinv)|].
      intros <-. done.
    + by rewrite lookup_insert_eq.
  - intros k record. rewrite lookup_insert. case_decide.
    + intros [= <-]. constructor.
    + apply (inv_shape w Hinv).
Qed.

(** [run_agent] writes one terminal record under its own key, or none when
    the agent's exception leaves it; it touches neither another key nor the
    queue. *)
Lemma run_agent_writes a query_id text w :
  background (snd (run_agent a query_id text w)) = background w ∧
  (active_tasks (snd (run_agent a query_id text w)) = active_tasks w ∨
   ∃ record,
     terminal record ∧
     active_tasks (snd (run_agent a query_id text w))
       = <[query_id := record]> (active_tasks w)).
Proof.
  unfold run_agent, agent_query. destruct (negb _).
  - split; [done|]. right. eexists. split; [right; eauto|done].
  - destruct (outcome a) as [[result|msg]|msg].
    + split; [done|]. right. eexists. split; [left; eauto|done].
    + split; [done|]. right. eexists. split; [right; eauto|done].
    + split; [done|]. by left.
Qed.

(** Under a key that holds a record, [run_agent] leaves that record or
    writes a terminal one. *)
Lemma run_agent_writes_known a query_id text w old :
  active_tasks w !! query_id = Some old →
  ∃ record,
    (record = old ∨ terminal record) ∧
    active_tasks (snd (run_agent a query_id text w))
      = <[query_id := record]> (active_tasks w) ∧
    background (snd (run_agent a query_id text w)) = background w.
Proof.
  intros Hold.
  destruct (run_agent_writes a query_id text w) as [Hbg [Hsame|Hnew]].
  - exists old. split_and!; [by left| |done].
    by rewrite Hsame, insert_id.
  - destruct Hnew as (record & Ht & Htasks). exists record.
    split_and!; [by right|done..].
Qed.

Lemma terminal_task_record record : terminal record → task_record record.
Proof. intros [[? ->]|[? ->]]; constructor. Qed.

Lemma terminal_not_processing record :
  terminal record → record ≠ processing_record.
Proof. intros [[? ->]|[? ->]]; discriminate. Qed.

Lemma run_background_inv query_id a w :
  registry_inv w → registry_inv (step (RunBackground query_id a) w).
Proof.
  intros Hinv. simpl.
  destruct (take_task query_id (background w)) as [[text rest]|] eqn:E;
    [|done].
  apply take_task_split in E as (before & after & Hq & -> & Hnb).
  pose proof (inv_queue w Hinv) as Hnd.
  rewrite Hq, fmap_app in Hnd. simpl in Hnd.
  apply NoDup_app in Hnd as (Hnd1 & Hdisj & Hnd2).
  apply NoDup_cons in Hnd2 as [Hna Hnd2].
  assert (query_id ∈ (background w).*1) as Hin.
  { rewrite Hq, fmap_app, elem_of_app. right. simpl.
    apply list_elem_of_here. }
  pose proof (inv_pending w Hinv _ Hin) as Hold.
  destruct (run_agent_writes_known a query_id text
              (set_background (before ++ after) w) processing_record Hold)
    as (record & Ht & Htasks & Hbg).
  simpl in Htasks, Hbg.
  assert (∀ k, k ∈ (before ++ after).*1 → k ≠ query_id) as Hother.
  { intros k. rewrite fmap_app, elem_of_app. intros [?|?] ->; done. }
  split; rewrite ?Htasks, ?Hbg.
  - intros k. rewrite map_size_insert_Some by eauto.
    rewrite <- (inv_keys w Hinv k). rewrite lookup_insert.
    case_decide; [subst k; rewrite Hold; split; eauto|done].
  - rewrite fmap_app. apply NoDup_app. split_and!; [done| |done].
    intros k Hk1 Hk2. apply (Hdisj k Hk1). simpl. by apply list_elem_of_further.
  - intros k Hk. rewrite lookup_insert_ne by (intros <-; by apply Hother in Hk).
    apply (inv_pending w Hinv). rewrite Hq.
    rewrite fmap_app, elem_of_app in Hk. rewrite fmap_app, elem_of_app. simpl.
    destruct Hk as [Hk|Hk]; [by left|right; by apply list_elem_of_further].
  - intros k r. rewrite lookup_insert. case_decide.
    + intros [= <-].
      destruct Ht as [->|Ht]; [constructor|by apply terminal_task_record].
    + apply (inv_shape w Hinv).
Qed.

Lemma reset_workspace_frame os w :
  active_tasks (snd (reset_workspace os w)) = active_tasks w ∧
  background (snd (reset_workspace os w)) = background w.
Proof.
  unfold reset_workspace.
  destruct (if path_exists (workspace w) then _ else _) as [[u|msg] ws1];
    [|done].
  destruct (makedirs os (WORKSPACE_DIR w) ws1) as [[u'|msg] ws2]; done.
Qed.

Lemma registry_inv_frame w w' :
  active_tasks w' = active_tasks w → background w' = background w →
  registry_inv w → registry_inv w'.
Proof.
  intros Ht Hb [H1 H2 H3 H4]. split; rewrite ?Ht, ?Hb; done.
Qed.

Lemma step_inv r w : registry_inv w → registry_inv (step r w).
Proof.
  destruct r; simpl; try done.
  - apply create_query_inv.
  - destruct (reset_workspace_frame os w). by apply registry_inv_frame.
  - apply run_background_inv.
  - by apply registry_inv_frame.
Qed.

Lemma exec_inv trace w : registry_inv w → registry_inv (exec trace w).
Proof.
  revert w. induction trace as [|r trace IH]; intros w Hinv; [done|].
  simpl. apply IH. by apply step_inv.
Qed.

Lemma reachable_inv w : reachable w → registry_inv w.
Proof.
  intros (w0 & trace & Hboot & ->). apply exec_inv. by apply booted_inv.
Qed.

Lemma reachable_step r w : reachable w → reachable (step r w).
Proof.
  intros (w0 & trace & Hboot & ->). exists w0, (trace ++ [r]). split; [done|].
  clear Hboot. revert w0. induction trace as [|r' trace IH]; intros w0; [done|].
  simpl. apply IH.
Qed.

Lemma reachable_exec trace w : reachable w → reachable (exec trace w).
Proof.
  revert w. induction trace as [|r trace IH]; intros w Hr; [done|].
  simpl. apply IH. by apply reachable_step.
Qed.

(** ** How one step changes the registry *)

(** A step leaves a record as it is, or creates it as [processing], or moves
    it from [processing] to a terminal record. *)
Lemma step_record r w k :
  registry_inv w →
  active_tasks (step r w) !! k = active_tasks w !! k ∨
  (active_tasks w !! k = None ∧
   k = fresh_query_id (active_tasks w) ∧
   active_tasks (step r w) !! k = Some processing_record) ∨
  (active_tasks w !! k = Some processing_record ∧
   ∃ record, terminal record ∧ active_tasks (step r w) !! k = Some record).
Proof.
  intros Hinv. destruct r as [text|q| |os|q a|env ws]; simpl; try by left.
  - rewrite lookup_insert. case_decide as Hk; [|by left].
    subst k. right; left. split_and!; [|done..].
    by apply fresh_query_id_unused.
  - left. by destruct (reset_workspace_frame os w) as [-> _].
  - destruct (take_task q (background w)) as [[text rest]|] eqn:E; [|by left].
    apply take_task_split in E as (before & after & Hq & -> & Hnb).
    destruct (run_agent_writes a q text (set_background (before ++ after) w))
      as [_ [-> |(record & Ht & ->)]]; [by left|].
    simpl. rewrite lookup_insert. case_decide as Hk; [|by left].
    subst k. right; right. split; [|eauto].
    apply (inv_pending w Hinv). rewrite Hq, fmap_app, elem_of_app.
    right. simpl. apply list_elem_of_here.
Qed.

Lemma step_keeps_terminal r w k record :
  registry_inv w → terminal record →
  active_tasks w !! k = Some record →
  active_tasks (step r w) !! k = Some record.
Proof.
  intros Hinv Ht Hk.
  destruct (step_record r w k Hinv) as [->|[(Hn & _)|(Hp & _)]]; [done|..].
  - congruence.
  - rewrite Hk in Hp. injection Hp as ->.
    by apply terminal_not_processing in Ht.
Qed.

Lemma exec_keeps_terminal trace w k record :
  registry_inv w → terminal record →
  active_tasks w !! k = Some record →
  active_tasks (exec trace w) !! k = Some record.
Proof.
  revert w. induction trace as [|r trace IH]; intros w Hinv Ht Hk; [done|].
  simpl. apply IH; [by apply step_inv|done|]. by apply step_keeps_terminal.
Qed.

Lemma step_keeps_keys r w k :
  registry_inv w →
  is_Some (active_tasks w !! k) → is_Some (active_tasks (step r w) !! k).
Proof.
  intros Hinv Hk.
  destruct (step_record r w k Hinv) as [->|[(Hn & _)|(_ & ? & _ & ->)]];
    [done| |eauto].
  rewrite Hn in Hk. by destruct Hk.
Qed.

(** The keys a trace adds to the registry are the identifiers it issued. *)
Lemma exec_keys trace w k :
  registry_inv w →
  is_Some (active_tasks (exec trace w) !! k) ↔
  is_Some (active_tasks w !! k) ∨ k ∈ issued trace w.
Proof.
  revert w. induction trace as [|r trace IH]; intros w Hinv; simpl.
  - rewrite elem_of_nil. tauto.
  - rewrite (IH (step r w)) by by apply step_inv.
    rewrite elem_of_app.
    assert (is_Some (active_tasks (step r w) !! k) ↔
            is_Some (active_tasks w !! k) ∨
            k ∈ match r with
                | PostQuery _ => [fresh_query_id (active_tasks w)]
                | _ => []
                end) as ->; [|tauto].
    split.
    + destruct (step_record r w k Hinv) as [->|[(Hn & -> & Hs)|(Hp & _)]].
      * by left.
      * intros _. right. destruct r; simpl in Hs; try congruence.
        -- apply list_elem_of_here.
        -- destruct (reset_workspace_frame os w) as [E _]. congruence.
        -- destruct (take_task query_id (background w)) as [[text rest]|] eqn:E;
             [|congruence].
           destruct (run_agent_writes a query_id text (set_background rest w))
             as [_ [Htasks|(record & Ht & Htasks)]];
             rewrite Htasks in Hs; simpl in Hs; [congruence|].
           rewrite lookup_insert in Hs. case_decide; [|congruence].
           injection Hs as Hs. by apply terminal_not_processing in Ht.
      * intros _. left. rewrite Hp. eauto.
    + intros [Hk|Hk]; [by apply step_keeps_keys|].
      destruct r; try by apply elem_of_nil in Hk.
      apply list_elem_of_singleton in Hk as ->. simpl.
      rewrite lookup_insert_eq. eauto.
Qed.

(** No identifier is issued twice, and none was in the registry before. *)
Lemma issued_fresh trace w :
  registry_inv w →
  NoDup (issued trace w) ∧
  ∀ k, k ∈ issued trace w → active_tasks w !! k = None.
Proof.
  revert w. induction trace as [|r trace IH]; intros w Hinv; simpl.
  - split; [constructor|]. intros k Hk. by apply elem_of_nil in Hk.
  - destruct (IH (step r w) (step_inv r w Hinv)) as [Hnd Hnew].
    assert (∀ k, k ∈ issued trace (step r w) → active_tasks w !! k = None)
      as Hold.
    { intros k Hk. apply Hnew in Hk.
      destruct (active_tasks w !! k) eqn:E; [|done].
      assert (is_Some (active_tasks (step r w) !! k)) as [? Hs]
        by (apply step_keeps_keys; eauto).
      congruence. }
    destruct r; simpl; try done.
    split.
    + apply NoDup_cons. split; [|done]. intros Hin. apply Hnew in Hin.
      simpl in Hin. by rewrite lookup_insert_eq in Hin.
    + intros k. rewrite elem_of_cons. intros [->|Hk]; [|by apply Hold].
      by apply fresh_query_id_unused.
Qed.

(** A scheduled call stays on the queue until the event loop runs it. *)
Lemma step_keeps_pending r w k :
  runs k r = false →
  k ∈ (background w).*1 → k ∈ (background (step r w)).*1.
Proof.
  intros Hr Hk. destruct r as [text|q| |os|q a|env ws]; simpl; try done.
  - rewrite fmap_app, elem_of_app. by left.
  - by destruct (reset_workspace_frame os w) as [_ ->].
  - simpl in Hr. apply String.eqb_neq in Hr.
    destruct (take_task q (background w)) as [[text rest]|] eqn:E; [|done].
    apply take_task_split in E as (before & after & Hq & -> & Hnb).
    destruct (run_agent_writes a q text (set_background (before ++ after) w))
      as [-> _].
    simpl. rewrite Hq, fmap_app, elem_of_app in Hk. simpl in Hk.
    rewrite elem_of_cons in Hk. rewrite fmap_app, elem_of_app.
    destruct Hk as [?|[?|?]]; [by left|done|by right].
Qed.

Lemma exec_keeps_pending trace w k :
  forallb (fun r => negb (runs k r)) trace = true →
  k ∈ (background w).*1 → k ∈ (background (exec trace w)).*1.
Proof.
  revert w. induction trace as [|r trace IH]; intros w Hq Hk; [done|].
  simpl in Hq. apply andb_true_iff in Hq as [Hr Hq].
  apply negb_true_iff in Hr. simpl. apply IH; [done|].
  by apply step_keeps_pending.
Qed.

Lemma fresh_world_booted : booted fresh_world.
Proof. by split. Qed.

Lemma fresh_world_reachable : reachable fresh_world.
Proof. exists fresh_world, []. split; [apply fresh_world_booted|done]. Qed.

(** ** Sorting names *)

Lemma sorted_is_sorted names : Sorted str_le (sorted names).
Proof. apply (Sorted_merge_sort str_le). Qed.

Lemma sorted_same_names names : sorted names ≡ₚ names.
Proof. apply merge_sort_Permutation. Qed.

(** The result of [sorted] does not depend on the order of its input. *)
Lemma sorted_order_independent names1 names2 :
  names1 ≡ₚ names2 → sorted names1 = sorted names2.
Proof.
  intros Hp. apply (Sorted_unique str_le); [apply sorted_is_sorted..|].
  by rewrite !sorted_same_names.
Qed.

(** ** The file tree *)

Lemma lookup_entry_elem item entries n :
  lookup_entry item entries = Some n → (item, n) ∈ entries.
Proof.
  induction entries as [|[name m] entries IH]; simpl; [done|].
  destruct (String.eqb_spec item name) as [->|Hne].
  - intros [= ->]. apply list_elem_of_here.
  - intros H. apply list_elem_of_further. by apply IH.
Qed.

Lemma lookup_entry_listed item entries :
  item ∈ listdir entries ↔ is_Some (lookup_entry item entries).
Proof.
  induction entries as [|[name m] entries IH]; simpl.
  - rewrite elem_of_nil. split; [done|]. intros [? ?]. done.
  - rewrite elem_of_cons. destruct (String.eqb_spec item name) as [->|Hne].
    + split; eauto.
    + rewrite <- IH. tauto.
Qed.

Lemma lookup_entry_levels item entries n :
  lookup_entry item entries = Some n → levels n < levels (Dir entries).
Proof.
  intros H. apply lookup_entry_elem in H. simpl.
  induction entries as [|e entries IH]; [by apply elem_of_nil in H|].
  apply elem_of_cons in H as [<-|H]; simpl; [lia|].
  specialize (IH H). lia.
Qed.

Lemma same_node_refl n : same_node n n.
Proof.
  remember (levels n) as fuel eqn:Hf.
  assert (levels n ≤ fuel)%nat as Hle by lia. clear Hf.
  revert n Hle. induction fuel as [|fuel IH]; intros [|entries] Hle.
  - constructor.
  - simpl in Hle. lia.
  - constructor.
  - constructor; [done|]. intros item n1 Hl. exists n1. split; [done|].
    apply IH. apply lookup_entry_levels in Hl. lia.
Qed.

(** Entry by entry introduction of [same_node] for two directories. *)
Lemma same_dir_intro entries1 entries2 :
  listdir entries1 ≡ₚ listdir entries2 →
  Forall (fun e => ∃ n2, lookup_entry e.1 entries2 = Some n2 ∧
                         same_node e.2 n2) entries1 →
  same_node (Dir entries1) (Dir entries2).
Proof.
  intros Hp Hall. constructor; [done|]. intros item n1 Hl.
  apply lookup_entry_elem in Hl. rewrite Forall_forall in Hall.
  by apply (Hall (item, n1)).
Qed.

(** With enough fuel, the tree of a directory does not depend on the fuel,
    nor on the order in which the entries are listed. *)
Lemma get_directory_tree_upto_same fuel1 :
  ∀ fuel2 entries1 entries2 rel_path,
    same_node (Dir entries1) (Dir entries2) →
    (levels (Dir entries1) ≤ fuel1)%nat →
    (levels (Dir entries2) ≤ fuel2)%nat →
    get_directory_tree_upto fuel1 entries1 rel_path
      = get_directory_tree_upto fuel2 entries2 rel_path.
Proof.
  induction fuel1 as [|fuel1 IH];
    intros [|fuel2] entries1 entries2 rel_path Hsame H1 H2;
    try (simpl in H1, H2; lia).
  inversion Hsame as [|? ? Hperm Hlook]; subst.
  cbn [get_directory_tree_upto].
  rewrite (sorted_order_independent _ _ Hperm).
  apply map_ext. intros item.
  destruct (lookup_entry item entries1) as [n1|] eqn:E1.
  - destruct (Hlook _ _ E1) as (n2 & E2 & Hn). rewrite E2.
    inversion Hn as [|sub1 sub2 ? ?]; subst; [done|].
    f_equal. apply IH; [done|..].
    + apply lookup_entry_levels in E1. lia.
    + apply lookup_entry_levels in E2. lia.
  - destruct (lookup_entry item entries2) as [n2|] eqn:E2; [|done].
    assert (is_Some (lookup_entry item entries1)) as [? ?]; [|congruence].
    apply lookup_entry_listed. rewrite Hperm.
    apply lookup_entry_listed. eauto.
Qed.

(** The recursive equation of the source: one level of the loop, with the
    recursive call on each sub-directory. *)
Lemma get_directory_tree_unfold entries rel_path :
  get_directory_tree entries rel_path
    = map (fun item =>
             match lookup_entry item entries with
             | Some (Dir sub) =>
                 directory_entry item (item_rel_path rel_path item)
                   (get_directory_tree sub (item_rel_path rel_path item))
             | _ => file_entry item (item_rel_path rel_path item)
             end) (sorted (listdir entries)).
Proof.
  unfold get_directory_tree at 1. cbn [levels get_directory_tree_upto].
  apply map_ext. intros item.
  destruct (lookup_entry item entries) as [[|sub]|] eqn:E; [done| |done].
  f_equal. apply lookup_entry_levels in E. simpl in E.
  apply get_directory_tree_upto_same; [apply same_node_refl|simpl; lia|done].
Qed.

Lemma entry_names_tree (f : string → pyval) items :
  (∀ item, entry_name (f item) = item) → entry_names (map f items) = items.
Proof.
  intros Hf. unfold entry_names. rewrite map_map.
  rewrite (map_ext _ id) by done. apply map_id.
Qed.

Lemma get_directory_tree_upto_names fuel entries rel_path :
  entry_names (get_directory_tree_upto (S fuel) entries rel_path)
    = sorted (listdir entries).
Proof.
  cbn [get_directory_tree_upto]. apply entry_names_tree. intros item.
  by destruct (lookup_entry item entries) as [[|sub]|].
Qed.

Lemma get_directory_tree_upto_shape fuel :
  ∀ entries rel_path,
    listing_shape rel_path (get_directory_tree_upto fuel entries rel_path).
Proof.
  induction fuel as [|fuel IH]; intros entries rel_path.
  - split; constructor.
  - split.
    + rewrite get_directory_tree_upto_names. apply sorted_is_sorted.
    + cbn [get_directory_tree_upto]. apply Forall_map, Forall_forall.
      intros item _.
      destruct (lookup_entry item entries) as [[|sub]|]; try constructor;
        apply IH.
Qed.

Lemma get_directory_tree_same entries1 entries2 rel_path :
  same_node (Dir entries1) (Dir entries2) →
  get_directory_tree entries1 rel_path = get_directory_tree entries2 rel_path.
Proof. intros Hsame. by apply get_directory_tree_upto_same. Qed.

Example get_directory_tree_listing_one :
  get_directory_tree listing_one ""
    = [file_entry "Dockerfile" "Dockerfile";
       directory_entry "example-repo" "example-repo"
         [file_entry "README.md" "example-repo/README.md";
          directory_entry "src" "example-repo/src"
            [file_entry "app.py" "example-repo/src/app.py"]];
       file_entry "main.py" "main.py"].
Proof. vm_compute. reflexivity. Qed.

Lemma listings_same : same_node (Dir listing_one) (Dir listing_two).
Proof.
  apply same_dir_intro.
  - simpl. etrans; [apply perm_swap|]. etrans; [apply perm_skip, perm_swap|].
    apply perm_swap.
  - unfold listing_one. rewrite !Forall_cons, Forall_nil. simpl.
    split_and!; [| |  |done]; (eexists; split; [reflexivity|]).
    + constructor.
    + apply same_dir_intro; [apply perm_swap|].
      rewrite !Forall_cons, Forall_nil. simpl.
      split_and!; [| |done]; (eexists; split; [reflexivity|]);
        apply same_node_refl.
    + constructor.
Qed.

(** ** C1 *)

(** C1: [create_query] first stores the [processing] record under the new
    identifier, then schedules [run_agent], and returns the identifier with
    status [processing]; from then on, as long as the event loop has not run
    that background call, a poll of the identifier returns the [processing]
    record and not [not_found].  The handler itself does not call the
    agent. *)
Theorem C1_submit_registers_before_scheduling text w trace :
  reachable w →
  forallb (fun r => negb (runs (fresh_query_id (active_tasks w)) r)) trace
    = true →
  let query_id := fresh_query_id (active_tasks w) in
  let registered := set_task query_id processing_record w in
  create_query text w
    = ([("query_id", PyStr query_id); ("status", PyStr "processing")],
       add_task query_id text registered) ∧
  active_tasks registered !! query_id = Some processing_record ∧
  background registered = background w ∧
  (query_id ∉ (background registered).*1) ∧
  get_result query_id (exec trace (snd (create_query text w)))
    = processing_record ∧
  get_result query_id (exec trace (snd (create_query text w)))
    ≠ not_found_response ∧
  agent_calls (snd (create_query text w)) = agent_calls w.
Proof.
  intros Hreach Hquiet query_id registered.
  pose proof (reachable_inv w Hreach) as Hinv.
  assert (get_result query_id (exec trace (snd (create_query text w)))
          = processing_record) as Hpoll.
  { unfold get_result.
    rewrite (inv_pending (exec trace (snd (create_query text w)))
               (exec_inv _ _ (create_query_inv text w Hinv)) query_id); [done|].
    apply exec_keeps_pending; [done|]. simpl.
    rewrite fmap_app, elem_of_app. right. apply list_elem_of_here. }
  split_and!; [done| |done| |done| |done].
  - simpl. by rewrite lookup_insert_eq.
  - simpl. by apply fresh_query_id_not_pending.
  - rewrite Hpoll. discriminate.
Qed.

Lemma C1_witness :
  get_result "query_1"
    (exec [GetResult "query_1"; PostQuery "status"; GetWorkspaceInfo]
          (snd (create_query "list files" fresh_world)))
    = processing_record.
Proof.
  apply (C1_submit_registers_before_scheduling "list files" fresh_world
           [GetResult "query_1"; PostQuery "status"; GetWorkspaceInfo]).
  - apply fresh_world_reachable.
  - reflexivity.
Defined.

(** ** C2 *)

(** C2: after any sequence of requests, polling an identifier that
    [create_query] did not hand out returns exactly [{"status": "not_found"}];
    the handler returns a body (it does not raise) and the status is not
    [error]. *)
Theorem C2_unknown_identifier_not_found w0 trace query_id :
  booted w0 →
  query_id ∉ issued trace w0 →
  respond (GetResult query_id) (exec trace w0)
    = Some (Responds [("status", PyStr "not_found")]) ∧
  status_of (get_result query_id (exec trace w0)) = Some (PyStr "not_found") ∧
  status_of (get_result query_id (exec trace w0)) ≠ Some (PyStr "error").
Proof.
  intros Hboot Hni.
  assert (active_tasks (exec trace w0) !! query_id = None) as Hnone.
  { destruct (active_tasks (exec trace w0) !! query_id) eqn:E; [|done].
    assert (is_Some (active_tasks (exec trace w0) !! query_id)) as Hs by eauto.
    apply exec_keys in Hs; [|by apply booted_inv].
    destruct Hs as [[? Hs]|Hs]; [|done].
    destruct Hboot as [Ht _]. by rewrite Ht, lookup_empty in Hs. }
  simpl. unfold get_result. rewrite Hnone. split_and!; [done..|discriminate].
Qed.

Lemma C2_witness :
  respond (GetResult "query_999")
          (exec [PostQuery "list files";
                 RunBackground "query_1" (mkAgentRun (Responds "ok") None)]
                fresh_world)
    = Some (Responds [("status", PyStr "not_found")]).
Proof.
  apply (C2_unknown_identifier_not_found fresh_world
           [PostQuery "list files";
            RunBackground "query_1" (mkAgentRun (Responds "ok") None)]
           "query_999").
  - apply fresh_world_booted.
  - vm_compute (issued _ _). intros H%list_elem_of_singleton. discriminate H.
Defined.

(** ** C3 *)

(** C3: in a reachable state, one step leaves a record as it is or moves it
    from [processing] to [completed] or [error]; a record that is
    [completed] or [error] is left as it is by every sequence of requests,
    so every later poll returns it unchanged. *)
Theorem C3_status_only_moves_forward w k record :
  reachable w →
  active_tasks w !! k = Some record →
  (∀ r, active_tasks (step r w) !! k = Some record ∨
        (record = processing_record ∧
         ∃ record', terminal record' ∧
                    active_tasks (step r w) !! k = Some record')) ∧
  (terminal record →
   ∀ trace, active_tasks (exec trace w) !! k = Some record ∧
            get_result k (exec trace w) = record).
Proof.
  intros Hreach Hk. pose proof (reachable_inv w Hreach) as Hinv. split.
  - intros r.
    destruct (step_record r w k Hinv) as [->|[(Hn & _)|(Hp & Hnew)]].
    + by left.
    + congruence.
    + right. split; [congruence|done].
  - intros Ht trace.
    pose proof (exec_keeps_terminal trace w k record Hinv Ht Hk) as Hkeep.
    split; [done|]. unfold get_result. by rewrite Hkeep.
Qed.

Lemma C3_witness :
  get_result "query_1"
    (exec [RunBackground "query_1" (mkAgentRun (Escapes "late") None);
           PostQuery "again";
           PostResetWorkspace (mkOsRun OsDone OsDone)]
       (exec [PostQuery "list files";
              RunBackground "query_1" (mkAgentRun (Responds "ok") None)]
             fresh_world))
    = completed_record "ok".
Proof.
  refine (proj2 (proj2 (C3_status_only_moves_forward
            (exec [PostQuery "list files";
                   RunBackground "query_1" (mkAgentRun (Responds "ok") None)]
                  fresh_world)
            "query_1" (completed_record "ok") _ _) _ _)).
  - apply reachable_exec, fresh_world_reachable.
  - vm_compute. reflexivity.
  - left. exists "ok". reflexivity.
Defined.

(** ** C4 *)




(** ** C5 *)

(** C5: after any sequence of requests, [create_query] returns
    [query_<n>] with [n] one more than the number of records; that
    identifier was not handed out before and is not a key of the registry,
    no step removes a key, and the identifiers handed out along a trace are
    pairwise different.  On the empty registry the answer is [query_1]. *)
Theorem C5_submit_returns_fresh_identifier w0 trace text :
  booted w0 →
  let w := exec trace w0 in
  let query_id := "query_" +:+ pretty (size (active_tasks w) + 1) in
  dict_get "query_id" (fst (create_query text w)) = Some (PyStr query_id) ∧
  (query_id ∉ issued trace w0) ∧
  active_tasks w !! query_id = None ∧
  (∀ r k, is_Some (active_tasks w !! k) →
          is_Some (active_tasks (step r w) !! k)) ∧
  NoDup (issued (trace ++ [PostQuery text]) w0) ∧
  fst (create_query text w0)
    = [("query_id", PyStr "query_1"); ("status", PyStr "processing")].
Proof.
  intros Hboot w query_id.
  pose proof (booted_inv w0 Hboot) as Hinv0.
  pose proof (exec_inv trace w0 Hinv0) as Hinv. fold w in Hinv.
  pose proof (fresh_query_id_unused w Hinv) as Hfresh.
  split_and!.
  - done.
  - intros Hin.
    assert (is_Some (active_tasks w !! query_id)) as [? Hs].
    { apply exec_keys; [done|]. by right. }
    unfold query_id in Hs. unfold fresh_query_id in Hfresh. congruence.
  - done.
  - intros r k. by apply step_keeps_keys.
  - by apply issued_fresh.
  - unfold create_query, fresh_query_id. destruct Hboot as [-> _].
    by rewrite map_size_empty.
Qed.

Lemma C5_witness :
  dict_get "query_id"
    (fst (create_query "third"
            (exec [PostQuery "first"; GetResult "query_1"; PostQuery "second"]
                  fresh_world)))
    = Some (PyStr "query_3").
Proof.
  apply (C5_submit_returns_fresh_identifier fresh_world
           [PostQuery "first"; GetResult "query_1"; PostQuery "second"]
           "third").
  apply fresh_world_booted.
Defined.

(** ** C6 *)

(** C6: when [ANTHROPIC_API_KEY] is unset (or empty) as [run_agent] runs,
    the record of that query becomes [error] with a message that says the
    key was not found; the agent is not called, the workspace and every
    other record stay as they were, and [run_agent] returns normally. *)
Theorem C6_missing_credential_is_an_error_record a query_id text w :
  truthy (environ w !! API_KEY) = false →
  fst (run_agent a query_id text w) = Responds tt ∧
  active_tasks (snd (run_agent a query_id text w)) !! query_id
    = Some [("status", PyStr "error");
            ("result",
             PyStr "Error: ANTHROPIC_API_KEY not found in .env file")] ∧
  contains "not found"
    "Error: ANTHROPIC_API_KEY not found in .env file" ∧
  agent_calls (snd (run_agent a query_id text w)) = agent_calls w ∧
  workspace (snd (run_agent a query_id text w)) = workspace w ∧
  ∀ k, k ≠ query_id →
       active_tasks (snd (run_agent a query_id text w)) !! k
         = active_tasks w !! k.
Proof.
  intros Hkey. unfold run_agent. rewrite Hkey. simpl.
  rewrite lookup_insert_eq. split_and!; try done.
  - by exists "Error: ANTHROPIC_API_KEY ", " in .env file".
  - intros k Hk. by rewrite lookup_insert_ne.
Qed.

Lemma C6_witness :
  active_tasks
    (snd (run_agent (mkAgentRun (Responds "unused") None) "test_001"
            "Deploy something"
            (mkWorld "/srv/agent_workspace" ∅ [] ∅ (Some (Dir [])) [])))
    !! "test_001"
    = Some [("status", PyStr "error");
            ("result",
             PyStr "Error: ANTHROPIC_API_KEY not found in .env file")].
Proof.
  apply (C6_missing_credential_is_an_error_record
           (mkAgentRun (Responds "unused") None) "test_001" "Deploy something"
           (mkWorld "/srv/agent_workspace" ∅ [] ∅ (Some (Dir [])) [])).
  reflexivity.
Defined.

(** ** C7 *)


(** ** C8 *)

(** C8: [reset_workspace] leaves the task registry as it was, whether it
    answers [success] or [error]: the dictionary is the same, so every key
    has the same record, with the same status and result. *)
Theorem C8_reset_workspace_keeps_registry os w :
  active_tasks (snd (reset_workspace os w)) = active_tasks w ∧
  (∀ k, active_tasks (snd (reset_workspace os w)) !! k
          = active_tasks w !! k) ∧
  (∀ k, get_result k (snd (reset_workspace os w)) = get_result k w) ∧
  background (snd (reset_workspace os w)) = background w.
Proof.
  destruct (reset_workspace_frame os w) as [Ht Hb].
  split_and!; [done| |  |done].
  - intros k. by rewrite Ht.
  - intros k. unfold get_result. by rewrite Ht.
Qed.

(** ** C9 *)

(** C9 as the specification words it: every body of GET /result has a
    [result] field.  The body for an unknown identifier has none. *)
Lemma C9_counterexample :
  ¬ (∀ query_id w,
       reachable w →
       dict_keys (get_result query_id w) = ["status"; "result"]).
Proof.
  intros H. specialize (H "query_999" fresh_world fresh_world_reachable).
  vm_compute in H. discriminate H.
Qed.

(** C9, amended: for an identifier in the registry the body has exactly the
    fields [status] and [result], where [status] is ["processing"] with
    [result] null, or ["completed"] or ["error"] with [result] a string; for
    an unknown identifier the body is [{"status": "not_found"}] and has no
    [result] field. *)
Theorem C9_result_body_shape query_id w :
  reachable w →
  (active_tasks w !! query_id = None ∧
   get_result query_id w = [("status", PyStr "not_found")] ∧
   dict_has "result" (get_result query_id w) = false) ∨
  (is_Some (active_tasks w !! query_id) ∧
   dict_keys (get_result query_id w) = ["status"; "result"] ∧
   ((status_of (get_result query_id w) = Some (PyStr "processing") ∧
     dict_get "result" (get_result query_id w) = Some PyNone) ∨
    (∃ s, status_of (get_result query_id w) = Some (PyStr "completed") ∧
          dict_get "result" (get_result query_id w) = Some (PyStr s)) ∨
    (∃ s, status_of (get_result query_id w) = Some (PyStr "error") ∧
          dict_get "result" (get_result query_id w) = Some (PyStr s)))).
Proof.
  intros Hreach. pose proof (reachable_inv w Hreach) as Hinv.
  unfold get_result.
  destruct (active_tasks w !! query_id) as [record|] eqn:E; [right|left; done].
  split; [eauto|].
  destruct (inv_shape w Hinv _ _ E) as [|result|message].
  - split; [done|]. left. done.
  - split; [done|]. right; left. by exists result.
  - split; [done|]. right; right. by exists message.
Qed.

Lemma C9_witness :
  (active_tasks fresh_world !! "query_999" = None ∧
   get_result "query_999" fresh_world = [("status", PyStr "not_found")] ∧
   dict_has "result" (get_result "query_999" fresh_world) = false) ∨
  (is_Some (active_tasks fresh_world !! "query_999") ∧
   dict_keys (get_result "query_999" fresh_world) = ["status"; "result"] ∧
   ((status_of (get_result "query_999" fresh_world)
       = Some (PyStr "processing") ∧
     dict_get "result" (get_result "query_999" fresh_world) = Some PyNone) ∨
    (∃ s, status_of (get_result "query_999" fresh_world)
            = Some (PyStr "completed") ∧
          dict_get "result" (get_result "query_999" fresh_world)
            = Some (PyStr s)) ∨
    (∃ s, status_of (get_result "query_999" fresh_world)
            = Some (PyStr "error") ∧
          dict_get "result" (get_result "query_999" fresh_world)
            = Some (PyStr s)))).
Proof.
  apply (C9_result_body_shape "query_999" fresh_world).
  apply fresh_world_reachable.
Defined.

(** ** C10 *)

(** C10: for a workspace that is a directory, GET /workspace_info answers
    with the tree computed by [get_directory_tree]; the tree is the same for
    every order in which the directories list their entries; at every level
    the entries are the directory's names in sorted order, each entry's
    [path] is the name at the top level and [os.path.join] of the parent's
    path and the name below it, a directory entry has a [children] list that
    is the tree of that directory, and a file entry has the three fields
    [name], [path], [type] only.  For an absent workspace the tree is
    empty. *)
Theorem C10_workspace_file_tree w entries entries' :
  same_node (Dir entries) (Dir entries') →
  workspace_info (set_workspace (Some (Dir entries)) w)
    = Responds [("workspace_path", PyStr (WORKSPACE_DIR w));
                ("workspace_exists", PyBool true);
                ("files", PyList (get_directory_tree entries ""))] ∧
  workspace_info (set_workspace (Some (Dir entries')) w)
    = workspace_info (set_workspace (Some (Dir entries)) w) ∧
  workspace_info (set_workspace None w)
    = Responds [("workspace_path", PyStr (WORKSPACE_DIR w));
                ("workspace_exists", PyBool false);
                ("files", PyList [])] ∧
  listing_shape "" (get_directory_tree entries "") ∧
  entry_names (get_directory_tree entries "") = sorted (listdir entries) ∧
  Sorted str_le (sorted (listdir entries)) ∧
  sorted (listdir entries) ≡ₚ listdir entries ∧
  ∀ dir rel_path,
    get_directory_tree dir rel_path
      = map (fun item =>
               let path := if String.eqb rel_path "" then item
                           else path_join rel_path item in
               match lookup_entry item dir with
               | Some (Dir sub) =>
                   PyDict [("name", PyStr item); ("path", PyStr path);
                           ("type", PyStr "directory");
                           ("children", PyList (get_directory_tree sub path))]
               | _ =>
                   PyDict [("name", PyStr item); ("path", PyStr path);
                           ("type", PyStr "file")]
               end) (sorted (listdir dir)).
Proof.
  intros Hsame. split_and!.
  - done.
  - unfold workspace_info. simpl.
    by rewrite (get_directory_tree_same _ _ "" Hsame).
  - done.
  - apply get_directory_tree_upto_shape.
  - apply get_directory_tree_upto_names.
  - apply sorted_is_sorted.
  - apply sorted_same_names.
  - intros dir rel_path. apply get_directory_tree_unfold.
Qed.

Lemma C10_witness :
  workspace_info (set_workspace (Some (Dir listing_two)) fresh_world)
    = workspace_info (set_workspace (Some (Dir listing_one)) fresh_world).
Proof.
  apply (C10_workspace_file_tree fresh_world listing_one listing_two).
  apply listings_same.
Defined.

(** ** More on the registry *)

Lemma exec_app trace1 trace2 w :
  exec (trace1 ++ trace2) w = exec trace2 (exec trace1 w).
Proof.
  revert w. induction trace1 as [|r trace1 IH]; intros w; [done|].
  simpl. apply IH.
Qed.

Lemma step_size r w :
  registry_inv w →
  size (active_tasks (step r w))
    = size (active_tasks w) + (if is_post_query r then 1 else 0).
Proof.
  intros Hinv. destruct r as [text|q| |os|q a|env ws]; simpl; try lia.
  - rewrite map_size_insert_None by by apply fresh_query_id_unused. lia.
  - destruct (reset_workspace_frame os w) as [-> _]. lia.
  - destruct (take_task q (background w)) as [[text rest]|] eqn:E; [|lia].
    apply take_task_split in E as (before & after & Hq & -> & Hnb).
    destruct (run_agent_writes a q text (set_background (before ++ after) w))
      as [_ [-> |(record & _ & ->)]]; [simpl; lia|].
    simpl. rewrite map_size_insert_Some; [lia|].
    apply pending_is_known; [done|].
    rewrite Hq, fmap_app, elem_of_app. right. apply list_elem_of_here.
Qed.

Lemma exec_size trace w :
  registry_inv w →
  size (active_tasks (exec trace w))
    = size (active_tasks w) + length (filter is_post_query trace).
Proof.
  revert w. induction trace as [|r trace IH]; intros w Hinv; simpl; [lia|].
  rewrite IH by by apply step_inv. rewrite step_size by done.
  rewrite filter_cons. destruct (is_post_query r); simpl; lia.
Qed.

Lemma issued_length trace w :
  length (issued trace w) = length (filter is_post_query trace).
Proof.
  revert w. induction trace as [|r trace IH]; intros w; simpl; [done|].
  rewrite length_app, IH, filter_cons. by destruct r.
Qed.

(** What [run_agent] returns tells whether it has written. *)
Lemma run_agent_outcome a query_id text w :
  (∃ msg, fst (run_agent a query_id text w) = Escapes msg ∧
          active_tasks (snd (run_agent a query_id text w)) = active_tasks w) ∨
  (fst (run_agent a query_id text w) = Responds tt ∧
   ∃ record,
     terminal record ∧
     active_tasks (snd (run_agent a query_id text w))
       = <[query_id := record]> (active_tasks w)).
Proof.
  unfold run_agent, agent_query. destruct (negb _).
  - right. split; [done|]. eexists. split; [right; eauto|done].
  - destruct (outcome a) as [[result|msg]|msg].
    + right. split; [done|]. eexists. split; [left; eauto|done].
    + right. split; [done|]. eexists. split; [right; eauto|done].
    + left. eauto.
Qed.

Lemma queue_without query_id text (before after : list (string * string)) k :
  k ∈ (before ++ (query_id, text) :: after).*1 ↔
  k = query_id ∨ k ∈ (before ++ after).*1.
Proof.
  rewrite !fmap_app, !elem_of_app. simpl. rewrite elem_of_cons. tauto.
Qed.

(** A step orphans the record of the call it runs when the agent's
    exception leaves [run_agent], and no other record. *)
Lemma step_orphaned r w k :
  registry_inv w →
  orphaned (step r w) k ↔ orphaned w k ∨ k ∈ abandoned_by r w.
Proof.
  intros Hinv. unfold orphaned.
  destruct r as [text|q| |os|q a|env ws]; simpl;
    try (rewrite elem_of_nil; tauto).
  - pose proof (fresh_query_id_unused w Hinv) as Hfresh.
    rewrite elem_of_nil, fmap_app, elem_of_app, lookup_insert. simpl.
    rewrite list_elem_of_singleton. case_decide as Hk.
    + subst k. rewrite Hfresh. split; [intros [_ H]; tauto|].
      intros [[? _]|[]]. done.
    + split; [intros [? ?]; left; split; [done|tauto]|].
      intros [[? ?]|[]]. split; [done|]. intros [?|?]; [done|congruence].
  - destruct (reset_workspace_frame os w) as [-> ->].
    rewrite elem_of_nil. tauto.
  - destruct (take_task q (background w)) as [[text rest]|] eqn:E;
      [|rewrite elem_of_nil; tauto].
    apply take_task_split in E as (before & after & Hq & -> & Hnb).
    pose proof (inv_queue w Hinv) as Hnd. rewrite Hq, fmap_app in Hnd.
    simpl in Hnd. apply NoDup_app in Hnd as (_ & _ & Hnd).
    apply NoDup_cons in Hnd as [Hna _].
    assert (q ∉ (before ++ after).*1) as Hnq.
    { rewrite fmap_app, elem_of_app. tauto. }
    assert (active_tasks w !! q = Some processing_record) as Hproc.
    { apply (inv_pending w Hinv). rewrite Hq. apply queue_without. by left. }
    destruct (run_agent_writes a q text (set_background (before ++ after) w))
      as [Hbg _]. rewrite Hbg. simpl.
    rewrite Hq. setoid_rewrite queue_without.
    destruct (run_agent_outcome a q text (set_background (before ++ after) w))
      as [(msg & -> & ->)|(-> & record & Ht & ->)]; simpl.
    + rewrite list_elem_of_singleton.
      destruct (decide (k = q)) as [->|Hk]; [tauto|]. tauto.
    + rewrite elem_of_nil, lookup_insert. case_decide as Hk.
      * subst k. split; [|tauto]. intros [[= ->] _].
        by apply terminal_not_processing in Ht.
      * assert (k ≠ q) by congruence. tauto.
Qed.

Lemma exec_orphaned trace w k :
  registry_inv w →
  orphaned (exec trace w) k ↔ orphaned w k ∨ k ∈ abandoned trace w.
Proof.
  revert w. induction trace as [|r trace IH]; intros w Hinv; simpl.
  - rewrite elem_of_nil. tauto.
  - rewrite IH by by apply step_inv. rewrite step_orphaned by done.
    rewrite elem_of_app. tauto.
Qed.

Lemma abandoned_app trace1 trace2 w :
  abandoned (trace1 ++ trace2) w
    = abandoned trace1 w ++ abandoned trace2 (exec trace1 w).
Proof.
  revert w. induction trace1 as [|r trace1 IH]; intros w; [done|].
  simpl. by rewrite IH, app_assoc.
Qed.

(** After any trace since the module was loaded, a record is [processing]
    exactly when its call is scheduled or was left by the agent's
    exception. *)
Lemma processing_scheduled_or_abandoned w0 trace k :
  booted w0 →
  active_tasks (exec trace w0) !! k = Some processing_record ↔
  k ∈ (background (exec trace w0)).*1 ∨ k ∈ abandoned trace w0.
Proof.
  intros Hboot. pose proof (booted_inv w0 Hboot) as Hinv.
  pose proof (exec_orphaned trace w0 k Hinv) as Horph. unfold orphaned in Horph.
  assert (active_tasks w0 !! k = None) as Hnone
    by (destruct Hboot as [-> _]; apply lookup_empty).
  rewrite Hnone in Horph. split.
  - intros Hp.
    destruct (decide (k ∈ (background (exec trace w0)).*1)) as [?|Hn];
      [by left|].
    right. destruct (proj1 Horph (conj Hp Hn)) as [[? _]|?]; done.
  - intros [Hq|Ha].
    + by apply (inv_pending _ (exec_inv trace w0 Hinv)).
    + by apply Horph; right.
Qed.

(** Running the oldest scheduled call takes it off the queue. *)
Lemma step_run_oldest a k text rest w :
  background w = (k, text) :: rest →
  background (step (RunBackground k a) w) = rest.
Proof.
  intros Hq. simpl. rewrite Hq. simpl. rewrite String.eqb_refl.
  by destruct (run_agent_writes a k text (set_background rest w)) as [-> _].
Qed.

Lemma exec_run_all_empties agents queue :
  ∀ w, background w = queue →
       background (exec (run_all agents queue) w) = [].
Proof.
  induction queue as [|[k text] rest IH]; intros w Hq; [done|].
  simpl. apply IH. by apply (step_run_oldest _ _ text).
Qed.

(** The calls to the agent never outnumber the records that are no longer
    waiting. *)
Lemma step_agent_calls r w :
  registry_inv w →
  (length (agent_calls w) + length (background w)
     ≤ size (active_tasks w))%nat →
  (length (agent_calls (step r w)) + length (background (step r w))
     ≤ size (active_tasks (step r w)))%nat.
Proof.
  intros Hinv Hle. rewrite step_size by done.
  destruct r as [text|q| |os|q a|env ws]; simpl; try lia.
  - rewrite length_app. simpl. lia.
  - destruct (reset_workspace_frame os w) as [_ ->].
    assert (agent_calls (snd (reset_workspace os w)) = agent_calls w) as ->;
      [|lia].
    unfold reset_workspace.
    destruct (if path_exists (workspace w) then _ else _) as [[u|msg] ws1];
      [|done].
    by destruct (makedirs os (WORKSPACE_DIR w) ws1) as [[u'|msg] ws2].
  - destruct (take_task q (background w)) as [[text rest]|] eqn:E; [|lia].
    apply take_task_split in E as (before & after & Hq & -> & Hnb).
    rewrite Hq, length_app in Hle. simpl in Hle.
    unfold run_agent, agent_query.
    destruct (negb _); [simpl; rewrite length_app; lia|].
    destruct (outcome a) as [[result|msg]|msg]; simpl; rewrite !length_app;
      simpl; lia.
Qed.

Lemma exec_agent_calls trace w :
  registry_inv w →
  (length (agent_calls w) + length (background w)
     ≤ size (active_tasks w))%nat →
  (length (agent_calls (exec trace w)) + length (background (exec trace w))
     ≤ size (active_tasks (exec trace w)))%nat.
Proof.
  revert w. induction trace as [|r trace IH]; intros w Hinv Hle; [done|].
  simpl. apply IH; [by apply step_inv|by apply step_agent_calls].
Qed.

(** ** X1 *)

(** X1: when the key is set and the agent returns text, [run_agent] returns
    normally, stores the [completed] record with that text under the query's
    identifier, hands the query text to the agent exactly once, leaves the
    key in the environment as it was and leaves every other record
    untouched. *)
Theorem X1_run_agent_stores_completed_record a query_id text w result :
  truthy (environ w !! API_KEY) = true →
  outcome a = Responds result →
  fst (run_agent a query_id text w) = Responds tt ∧
  active_tasks (snd (run_agent a query_id text w)) !! query_id
    = Some [("status", PyStr "completed"); ("result", PyStr result)] ∧
  agent_calls (snd (run_agent a query_id text w)) = agent_calls w ++ [text] ∧
  environ (snd (run_agent a query_id text w)) !! API_KEY
    = environ w !! API_KEY ∧
  ∀ k, k ≠ query_id →
       active_tasks (snd (run_agent a query_id text w)) !! k
         = active_tasks w !! k.
Proof.
  intros Hkey Hret. unfold run_agent, agent_query. rewrite Hkey, Hret. simpl.
  rewrite !lookup_insert_eq. split_and!; try done.
  - destruct (environ w !! API_KEY); [done|discriminate Hkey].
  - intros k Hk. by rewrite lookup_insert_ne.
Qed.

Lemma X1_witness :
  active_tasks
    (snd (run_agent (mkAgentRun (Responds "a.txt") None) "query_1"
            "list files" fresh_world))
    !! "query_1"
    = Some [("status", PyStr "completed"); ("result", PyStr "a.txt")].
Proof.
  apply (X1_run_agent_stores_completed_record
           (mkAgentRun (Responds "a.txt") None) "query_1" "list files"
           fresh_world "a.txt").
  - reflexivity.
  - reflexivity.
Defined.

(** ** X2 *)

(** X2: after any sequence of requests since the module was loaded, the
    registry holds exactly one record per POST /query: its size is the
    number of POST /query requests, which is the number of identifiers
    handed out, and the next identifier is [query_<that number + 1>]. *)
Theorem X2_one_record_per_submission w0 trace :
  booted w0 →
  size (active_tasks (exec trace w0)) = length (filter is_post_query trace) ∧
  length (issued trace w0) = length (filter is_post_query trace) ∧
  fresh_query_id (active_tasks (exec trace w0))
    = "query_" +:+ pretty (length (filter is_post_query trace) + 1).
Proof.
  intros Hboot.
  assert (size (active_tasks (exec trace w0))
          = length (filter is_post_query trace)) as Hsize.
  { rewrite exec_size by by apply booted_inv.
    destruct Hboot as [-> _]. by rewrite map_size_empty. }
  split_and!; [done|apply issued_length|].
  unfold fresh_query_id. by rewrite Hsize.
Qed.

Lemma X2_witness :
  size (active_tasks
          (exec [PostQuery "first"; GetResult "query_1"; PostQuery "second";
                 RunBackground "query_1" (mkAgentRun (Responds "ok") None)]
                fresh_world))
    = 2.
Proof.
  apply (X2_one_record_per_submission fresh_world
           [PostQuery "first"; GetResult "query_1"; PostQuery "second";
            RunBackground "query_1" (mkAgentRun (Responds "ok") None)]).
  apply fresh_world_booted.
Defined.

(** ** X3 *)

(** X3: after any sequence of requests since the module was loaded, a
    record is [processing] exactly when the [run_agent] call scheduled for
    it has not run yet, or has run and was left by an exception of the
    agent that [except Exception] does not take ([SystemExit],
    [KeyboardInterrupt], a cancellation); such a record stays [processing]
    with no call left to change it. *)
Theorem X3_processing_iff_scheduled_or_abandoned w0 trace k :
  booted w0 →
  active_tasks (exec trace w0) !! k = Some processing_record ↔
  k ∈ (background (exec trace w0)).*1 ∨ k ∈ abandoned trace w0.
Proof. apply processing_scheduled_or_abandoned. Qed.

Lemma X3_witness :
  active_tasks
    (exec [PostQuery "first"; PostQuery "second";
           RunBackground "query_1" (mkAgentRun (Exits "1") None)]
          fresh_world)
    !! "query_1" = Some processing_record ↔
  "query_1"
    ∈ (background
         (exec [PostQuery "first"; PostQuery "second";
                RunBackground "query_1" (mkAgentRun (Exits "1") None)]
               fresh_world)).*1 ∨
  "query_1"
    ∈ abandoned [PostQuery "first"; PostQuery "second";
                 RunBackground "query_1" (mkAgentRun (Exits "1") None)]
                fresh_world.
Proof.
  apply (X3_processing_iff_scheduled_or_abandoned fresh_world
           [PostQuery "first"; PostQuery "second";
            RunBackground "query_1" (mkAgentRun (Exits "1") None)]
           "query_1").
  apply fresh_world_booted.
Defined.

(** ** X4 *)

(** X4: once the event loop has run every scheduled call, no call is left
    scheduled, and every record of the registry is [completed] or [error],
    except the records whose call was left by an exception of the agent
    that [except Exception] does not take: those are still [processing].
    When no call was left in this way, every record is [completed] or
    [error]. *)
Theorem X4_running_all_calls_leaves_no_call_scheduled
    agents w0 trace k record :
  booted w0 →
  active_tasks
    (exec (run_all agents (background (exec trace w0))) (exec trace w0))
    !! k = Some record →
  background
    (exec (run_all agents (background (exec trace w0))) (exec trace w0))
    = [] ∧
  (terminal record ∨
   (record = processing_record ∧
    k ∈ abandoned (trace ++ run_all agents (background (exec trace w0)))
                  w0)) ∧
  (abandoned (trace ++ run_all agents (background (exec trace w0))) w0 = [] →
   terminal record) ∧
  get_result k
    (exec (run_all agents (background (exec trace w0))) (exec trace w0))
    = record.
Proof.
  intros Hboot Hk.
  pose proof (exec_run_all_empties agents (background (exec trace w0))
                (exec trace w0) eq_refl) as Hempty.
  assert (terminal record ∨
          (record = processing_record ∧
           k ∈ abandoned
                 (trace ++ run_all agents (background (exec trace w0))) w0))
    as Hcases.
  { rewrite <- exec_app in Hk, Hempty.
    pose proof (exec_inv (trace ++ run_all agents (background (exec trace w0)))
                  w0 (booted_inv w0 Hboot)) as Hinv.
    destruct (inv_shape _ Hinv _ _ Hk) as [|result|message].
    - right. split; [done|].
      apply (processing_scheduled_or_abandoned w0 _ k Hboot) in Hk.
      rewrite Hempty in Hk. destruct Hk as [Hk|Hk]; [|done].
      by apply elem_of_nil in Hk.
    - left. left. eauto.
    - left. right. eauto. }
  split_and!; [done|done| |by unfold get_result; rewrite Hk].
  intros Hnone. destruct Hcases as [?|[_ Hin]]; [done|].
  rewrite Hnone in Hin. by apply elem_of_nil in Hin.
Qed.

Lemma X4_witness :
  background
    (exec (run_all (fun _ => mkAgentRun (Escapes "boom") None)
             (background
                (exec [PostQuery "first"; PostQuery "second"] fresh_world)))
          (exec [PostQuery "first"; PostQuery "second"] fresh_world))
    = [] ∧
  get_result "query_2"
    (exec (run_all (fun _ => mkAgentRun (Escapes "boom") None)
             (background
                (exec [PostQuery "first"; PostQuery "second"] fresh_world)))
          (exec [PostQuery "first"; PostQuery "second"] fresh_world))
    = error_record "Error: boom".
Proof.
  destruct (X4_running_all_calls_leaves_no_call_scheduled
              (fun _ => mkAgentRun (Escapes "boom") None) fresh_world
              [PostQuery "first"; PostQuery "second"] "query_2"
              (error_record "Error: boom") fresh_world_booted)
    as (Hq & _ & _ & Hg).
  - vm_compute. reflexivity.
  - split; [exact Hq|exact Hg].
Defined.

(** ** X5 *)

(** X5: the agent is called at most once per submitted query: after any
    sequence of requests since the module was loaded (with no call made
    before), the number of calls to the agent plus the number of calls still
    scheduled is at most the number of records, which is the number of
    POST /query requests. *)
Theorem X5_agent_called_at_most_once_per_query w0 trace :
  booted w0 →
  agent_calls w0 = [] →
  (length (agent_calls (exec trace w0)) + length (background (exec trace w0))
     ≤ length (filter is_post_query trace))%nat.
Proof.
  intros Hboot Hnone.
  pose proof (booted_inv w0 Hboot) as Hinv.
  rewrite <- (Nat.add_0_l (length (filter is_post_query trace))).
  replace 0 with (size (active_tasks w0))
    by (destruct Hboot as [-> _]; apply map_size_empty).
  rewrite <- exec_size by done. apply exec_agent_calls; [done|].
  destruct Hboot as [_ ->]. rewrite Hnone. simpl. lia.
Qed.

Lemma X5_witness :
  (length (agent_calls
             (exec [PostQuery "first"; PostQuery "second";
                    RunBackground "query_1" (mkAgentRun (Responds "ok") None);
                    RunBackground "query_1" (mkAgentRun (Responds "ok") None)]
                   fresh_world))
   + length (background
               (exec [PostQuery "first"; PostQuery "second";
                      RunBackground "query_1"
                        (mkAgentRun (Responds "ok") None);
                      RunBackground "query_1"
                        (mkAgentRun (Responds "ok") None)]
                     fresh_world))
   ≤ 2)%nat.
Proof.
  apply (X5_agent_called_at_most_once_per_query fresh_world
           [PostQuery "first"; PostQuery "second";
            RunBackground "query_1" (mkAgentRun (Responds "ok") None);
            RunBackground "query_1" (mkAgentRun (Responds "ok") None)]).
  - apply fresh_world_booted.
  - reflexivity.
Defined.

(** ** More on the workspace *)

Lemma reset_success_empties os w :
  dict_get "status" (fst (reset_workspace os w)) = Some (PyStr "success") →
  fst (reset_workspace os w) = reset_success (WORKSPACE_DIR w) ∧
  snd (reset_workspace os w) = set_workspace (Some (Dir [])) w.
Proof.
  unfold reset_workspace.
  destruct (workspace w) as [[|entries]|]; simpl; [done|..].
  - destruct (rmtree_result os) as [|msg residue]; simpl; [|done].
    by destruct (makedirs_result os) as [|msg residue].
  - by destruct (makedirs_result os) as [|msg residue].
Qed.

Lemma string_app_assoc (s1 s2 s3 : string) :
  (s1 +:+ s2) +:+ s3 = s1 +:+ s2 +:+ s3.
Proof.
  induction s1 as [|c s1 IH]; [done|].
  change (String c ((s1 +:+ s2) +:+ s3) = String c (s1 +:+ s2 +:+ s3)).
  by rewrite IH.
Qed.

Lemma endswith_sep_app s1 s2 :
  s2 ≠ "" → endswith_sep (s1 +:+ s2) = endswith_sep s2.
Proof.
  intros Hne. induction s1 as [|c s1 IH]; [done|].
  change (endswith_sep (String c (s1 +:+ s2)) = endswith_sep s2).
  cbn [endswith_sep]. destruct (s1 +:+ s2) as [|c' s'] eqn:E; [|done].
  destruct s1; [|discriminate E]. by destruct s2.
Qed.

Lemma endswith_sep_has_sep s : has_sep s = false → endswith_sep s = false.
Proof.
  induction s as [|c s IH]; [done|]. cbn [has_sep endswith_sep].
  intros [Hc Hs]%orb_false_iff. destruct s; [done|]. by apply IH.
Qed.

Lemma startswith_sep_has_sep s : has_sep s = false → startswith_sep s = false.
Proof. destruct s as [|c s]; [done|]. simpl. by intros [? _]%orb_false_iff. Qed.

(** Below a relative path that does not end in a separator, the path of a
    validly named entry is the prefix followed by the name. *)
Lemma item_rel_path_valid rel_path item :
  valid_name item = true →
  (rel_path = "" ∨ endswith_sep rel_path = false) →
  item_rel_path rel_path item = prefix_of rel_path +:+ item ∧
  item_rel_path rel_path item ≠ "" ∧
  endswith_sep (item_rel_path rel_path item) = false.
Proof.
  unfold valid_name. intros [Hne Hsep]%andb_true_iff Hrel.
  apply negb_true_iff, String.eqb_neq in Hne. apply negb_true_iff in Hsep.
  assert (item_rel_path rel_path item = prefix_of rel_path +:+ item) as ->.
  { unfold item_rel_path, prefix_of, path_join.
    destruct (String.eqb_spec rel_path "") as [->|Hr]; [done|].
    rewrite (startswith_sep_has_sep _ Hsep).
    destruct Hrel as [? | ->]; [done|]. simpl. by rewrite string_app_assoc. }
  split_and!; [done| |].
  - destruct (prefix_of rel_path); [done|discriminate].
  - rewrite endswith_sep_app by done. by apply endswith_sep_has_sep.
Qed.

Lemma valid_names_lookup item entries n :
  valid_names (Dir entries) = true →
  lookup_entry item entries = Some n →
  valid_names n = true.
Proof.
  intros Hv Hl. apply lookup_entry_elem in Hl. simpl in Hv.
  rewrite forallb_forall in Hv. apply list_elem_of_In, Hv in Hl.
  by apply andb_true_iff in Hl as [_ ?].
Qed.

Lemma valid_names_listed item entries :
  valid_names (Dir entries) = true →
  item ∈ listdir entries →
  valid_name item = true.
Proof.
  intros Hv Hl. simpl in Hv. rewrite forallb_forall in Hv.
  apply list_elem_of_fmap in Hl as ([name n] & -> & Hin).
  apply list_elem_of_In, Hv in Hin. by apply andb_true_iff in Hin as [? _].
Qed.

Lemma get_directory_tree_upto_paths fuel :
  ∀ entries rel_path,
    valid_names (Dir entries) = true →
    (rel_path = "" ∨ endswith_sep rel_path = false) →
    Forall (paths_under (prefix_of rel_path))
           (get_directory_tree_upto fuel entries rel_path).
Proof.
  induction fuel as [|fuel IH]; intros entries rel_path Hv Hrel;
    [constructor|].
  cbn [get_directory_tree_upto]. apply Forall_map, Forall_forall.
  intros item Hitem. simpl.
  assert (valid_name item = true) as Hname.
  { apply (valid_names_listed _ entries); [done|].
    by rewrite <- (sorted_same_names (listdir entries)). }
  destruct (item_rel_path_valid rel_path item Hname Hrel)
    as (Hpath & Hne & Hend).
  destruct (lookup_entry item entries) as [[|sub]|] eqn:E;
    rewrite Hpath; try constructor.
  specialize (IH sub (item_rel_path rel_path item)
                (valid_names_lookup _ _ _ Hv E) (or_intror Hend)).
  unfold prefix_of in IH at 1.
  destruct (String.eqb_spec (item_rel_path rel_path item) "") as [?|_];
    [done|].
  by rewrite Hpath, string_app_assoc in IH.
Qed.

(** ** X6 *)



(** ** X7 *)

(** X7: after [reset_workspace] has answered [success], [workspace_info]
    reports an existing workspace with an empty file tree, and a second
    reset during which the operating system carries out both calls answers
    [success] again and leaves the same state. *)
Theorem X7_reset_then_info os w :
  dict_get "status" (fst (reset_workspace os w)) = Some (PyStr "success") →
  workspace_info (snd (reset_workspace os w))
    = Responds [("workspace_path", PyStr (WORKSPACE_DIR w));
                ("workspace_exists", PyBool true);
                ("files", PyList [])] ∧
  reset_workspace (mkOsRun OsDone OsDone) (snd (reset_workspace os w))
    = (fst (reset_workspace os w), snd (reset_workspace os w)).
Proof.
  intros Hs. destruct (reset_success_empties os w Hs) as [-> ->]. done.
Qed.

Lemma X7_witness :
  workspace_info
    (snd (reset_workspace (mkOsRun OsDone OsDone)
            (set_workspace (Some (Dir listing_one)) fresh_world)))
    = Responds [("workspace_path", PyStr "/srv/agent_workspace");
                ("workspace_exists", PyBool true);
                ("files", PyList [])].
Proof.
  apply (X7_reset_then_info (mkOsRun OsDone OsDone)
           (set_workspace (Some (Dir listing_one)) fresh_world)).
  reflexivity.
Defined.

(** ** X8 *)

(** X8: when every name in the workspace is a valid entry name (not empty,
    no ["/"]), the [path] of every entry of the file tree, at every depth,
    is the names of its ancestors and its own name separated by single
    slashes: [os.path.join] never drops or doubles a component. *)
Theorem X8_paths_are_slash_joined entries :
  valid_names (Dir entries) = true →
  Forall (paths_under "") (get_directory_tree entries "").
Proof.
  intros Hv.
  apply (get_directory_tree_upto_paths (levels (Dir entries)) entries "");
    [done|by left].
Qed.

Lemma X8_witness :
  Forall (paths_under "") (get_directory_tree listing_one "").
Proof.
  apply (X8_paths_are_slash_joined listing_one). reflexivity.
Defined.

(** ** The polling loop of the front end *)

Lemma poll_once_status reply status message :
  Flask.poll_once reply = Some (Answered status message) →
  status = "success" ∨ status = "error".
Proof.
  unfold Flask.poll_once. destruct reply as [code [data|msg]| |msg]; try done.
  - destruct (negb _); [intros [= <- _]; by right|].
    destruct (str_eq _ "completed").
    { destruct (slice_100 _); [intros [= <- _]; by left|done]. }
    destruct (str_eq _ "error"); [intros [= <- _]; by right|].
    destruct (str_eq _ "not_found"); [intros [= <- _]; by right|done].
  - destruct (negb _); [intros [= <- _]; by right|done].
Qed.

Lemma poll_for_result_status retries :
  ∀ retry_count query_id poll_reply status message,
    fst (Flask.poll_for_result retries retry_count query_id poll_reply)
      = Answered status message →
    status = "success" ∨ status = "error".
Proof.
  induction retries as [|retries IH];
    intros retry_count query_id poll_reply status message; simpl.
  - intros [= <- _]. by right.
  - destruct (Flask.poll_once (poll_reply retry_count)) as [a|] eqn:E.
    + simpl. intros ->. by apply poll_once_status in E.
    + specialize (IH (S retry_count) query_id poll_reply status message).
      destruct (Flask.poll_for_result retries (S retry_count) query_id
                  poll_reply) as [a evs].
      apply IH.
Qed.

(** The loop sends at most [retries] polls, all for the same identifier,
    and does nothing else but sleep. *)
Lemma poll_for_result_events retries :
  ∀ retry_count query_id poll_reply,
    (length (filter is_get_result
               (snd (Flask.poll_for_result retries retry_count query_id
                       poll_reply))) ≤ retries)%nat ∧
    Forall (fun e => e = SentGetResult query_id ∨ e = Slept)
           (snd (Flask.poll_for_result retries retry_count query_id
                   poll_reply)).
Proof.
  induction retries as [|retries IH]; intros retry_count query_id poll_reply;
    simpl.
  - split; [done|constructor].
  - destruct (Flask.poll_once (poll_reply retry_count)) as [a|].
    + simpl. split; [lia|]. repeat constructor.
    + destruct (IH (S retry_count) query_id poll_reply) as [Hlen Hall].
      destruct (Flask.poll_for_result retries (S retry_count) query_id
                  poll_reply) as [a evs].
      simpl in *. split; [rewrite filter_cons; simpl; lia|].
      repeat constructor; done.
Qed.

(** When no round decides, the loop makes all its rounds and times out. *)
Lemma poll_for_result_timeout retries :
  ∀ retry_count query_id poll_reply,
    (∀ n, (n < retries)%nat →
          Flask.poll_once (poll_reply (retry_count + n)) = None) →
    Flask.poll_for_result retries retry_count query_id poll_reply
      = (Answered "error"
           (PyStr "Error: Timed out waiting for response from agent"),
         concat (replicate retries [SentGetResult query_id; Slept])).
Proof.
  induction retries as [|retries IH]; intros retry_count query_id poll_reply H;
    simpl; [done|].
  rewrite <- (Nat.add_0_r retry_count) at 1. rewrite H by lia.
  rewrite IH; [done|].
  intros n Hn. replace (S retry_count + n) with (retry_count + S n) by lia.
  apply H. lia.
Qed.

Lemma send_and_poll_shape user_query post_reply poll_reply :
  (∀ status message,
     fst (Flask.send_and_poll user_query post_reply poll_reply)
       = Answered status message →
     status = "success" ∨ status = "error") ∧
  ∃ polls,
    snd (Flask.send_and_poll user_query post_reply poll_reply)
      = SentPostQuery user_query :: polls ∧
    (length (filter is_get_result polls) ≤ Flask.max_retries)%nat ∧
    Forall (fun e => is_get_result e = true ∨ e = Slept) polls.
Proof.
  unfold Flask.send_and_poll.
  destruct post_reply as [code [data|msg]| |msg];
    try (split; [done|exists []; split_and!; [done|simpl; lia|constructor]]).
  - destruct (negb (Nat.eqb code 200)).
    { split; [intros ? ? [= <- _]; by right|].
      exists []. split_and!; [done|simpl; lia|constructor]. }
    destruct (negb (py_truthy _)).
    { split; [intros ? ? [= <- _]; by right|].
      exists []. split_and!; [done|simpl; lia|constructor]. }
    pose proof (poll_for_result_status Flask.max_retries 0
                  (default PyNone (dict_get "query_id" data)) poll_reply)
      as Hst.
    destruct (poll_for_result_events Flask.max_retries 0
                (default PyNone (dict_get "query_id" data)) poll_reply)
      as [Hlen Hall].
    destruct (Flask.poll_for_result _ _ _ _) as [a evs]. simpl in *.
    split; [done|]. exists evs. split_and!; [done..|].
    eapply Forall_impl; [done|]. intros e [-> | ->]; [by left|by right].
  - destruct (negb (Nat.eqb code 200)).
    + split; [intros ? ? [= <- _]; by right|].
      exists []. split_and!; [done|simpl; lia|constructor].
    + split; [done|]. exists []. split_and!; [done|simpl; lia|constructor].
Qed.

(** ** X9 *)

(** X9: [query] answers an empty query with status 400 without touching
    the session or the API.  Every other query is answered with status 200
    and a body [{status, message}] whose status is ["success"] or
    ["error"]; whatever happens on the way, the session's history grows by
    exactly the user's message and one assistant message holding the
    [message] of the body, the session is marked as modified, and the
    handler has sent one POST followed by at most 60 polls. *)
Theorem X9_query_keeps_the_history_in_step user_query post_reply poll_reply s :
  user_query ≠ "" →
  Flask.query "" post_reply poll_reply s
    = mkFlaskResult 400 [("error", PyStr "Query cannot be empty")] s [] ∧
  ∃ status message polls,
    (status = "success" ∨ status = "error") ∧
    response_code (Flask.query user_query post_reply poll_reply s) = 200 ∧
    response_body (Flask.query user_query post_reply poll_reply s)
      = [("status", PyStr status); ("message", message)] ∧
    messages (session_after (Flask.query user_query post_reply poll_reply s))
      = Some (default [] (messages s)
              ++ [chat_message "user" (PyStr user_query);
                  chat_message "assistant" message]) ∧
    modified (session_after (Flask.query user_query post_reply poll_reply s))
      = true ∧
    events (Flask.query user_query post_reply poll_reply s)
      = SentPostQuery user_query :: polls ∧
    (length (filter is_get_result polls) ≤ 60)%nat ∧
    Forall (fun e => is_get_result e = true ∨ e = Slept) polls.
Proof.
  intros Hne. split; [done|].
  unfold Flask.query. apply String.eqb_neq in Hne. rewrite Hne.
  destruct (send_and_poll_shape user_query post_reply poll_reply)
    as (Hst & polls & Hev & Hlen & Hall).
  destruct (Flask.send_and_poll user_query post_reply poll_reply) as [a evs].
  simpl in Hst, Hev. subst evs.
  assert (∀ message,
            messages (set_modified
                        (append_message (chat_message "assistant" message)
                           (append_message
                              (chat_message "user" (PyStr user_query))
                              (ensure_messages s))))
            = Some (default [] (messages s)
                    ++ [chat_message "user" (PyStr user_query);
                        chat_message "assistant" message])) as Hmsg.
  { intros message. unfold ensure_messages.
    destruct (messages s) as [l|] eqn:E; simpl; rewrite ?E; simpl;
      [by rewrite <- app_assoc|done]. }
  destruct a as [status message| |msg].
  - exists status, message, polls. split_and!; eauto.
  - eexists "error", _, polls. split_and!; eauto.
  - eexists "error", _, polls. split_and!; eauto.
Qed.

Lemma X9_witness :
  ∃ status message polls,
    (status = "success" ∨ status = "error") ∧
    response_code
      (Flask.query "list files" HttpConnectionError
         (fun _ => HttpConnectionError) (mkSession None false)) = 200 ∧
    response_body
      (Flask.query "list files" HttpConnectionError
         (fun _ => HttpConnectionError) (mkSession None false))
      = [("status", PyStr status); ("message", message)] ∧
    messages
      (session_after
         (Flask.query "list files" HttpConnectionError
            (fun _ => HttpConnectionError) (mkSession None false)))
      = Some (default [] (messages (mkSession None false))
              ++ [chat_message "user" (PyStr "list files");
                  chat_message "assistant" message]) ∧
    modified
      (session_after
         (Flask.query "list files" HttpConnectionError
            (fun _ => HttpConnectionError) (mkSession None false)))
      = true ∧
    events
      (Flask.query "list files" HttpConnectionError
         (fun _ => HttpConnectionError) (mkSession None false))
      = SentPostQuery "list files" :: polls ∧
    (length (filter is_get_result polls) ≤ 60)%nat ∧
    Forall (fun e => is_get_result e = true ∨ e = Slept) polls.
Proof.
  apply (X9_query_keeps_the_history_in_step "list files" HttpConnectionError
           (fun _ => HttpConnectionError) (mkSession None false)).
  discriminate.
Defined.

(** ** X10 *)

(** X10: when the POST is answered with an identifier and each of the 60
    polls is answered with status 200 and a JSON object whose [status] is
    none of ["completed"], ["error"], ["not_found"] (for one, a task that
    stays ["processing"]), [query] polls exactly 60 times, sleeping after
    each poll, and then answers with the time-out error. *)
Theorem X10_query_times_out_after_60_polls
    user_query data query_id poll_reply s :
  user_query ≠ "" →
  dict_get "query_id" data = Some query_id →
  py_truthy query_id = true →
  (∀ n, (n < 60)%nat →
        ∃ result_data,
          poll_reply n = HttpReply 200 (Responds result_data) ∧
          str_eq (dict_get "status" result_data) "completed" = false ∧
          str_eq (dict_get "status" result_data) "error" = false ∧
          str_eq (dict_get "status" result_data) "not_found" = false) →
  response_body
    (Flask.query user_query (HttpReply 200 (Responds data)) poll_reply s)
    = [("status", PyStr "error");
       ("message",
        PyStr "Error: Timed out waiting for response from agent")] ∧
  events
    (Flask.query user_query (HttpReply 200 (Responds data)) poll_reply s)
    = SentPostQuery user_query
      :: concat (replicate 60 [SentGetResult query_id; Slept]).
Proof.
  intros Hne Hid Htruthy Hpolls.
  unfold Flask.query, Flask.send_and_poll.
  apply String.eqb_neq in Hne. rewrite Hne, Hid.
  cbn [from_option id negb Nat.eqb]. rewrite Htruthy. cbn [negb].
  rewrite poll_for_result_timeout; [done|].
  intros n Hn. cbn [Nat.add].
  destruct (Hpolls n Hn) as (result_data & -> & H1 & H2 & H3).
  unfold Flask.poll_once. cbn [negb Nat.eqb]. by rewrite H1, H2, H3.
Qed.

Lemma X10_witness :
  response_body
    (Flask.query "list files"
       (HttpReply 200
          (Responds [("query_id", PyStr "query_1");
                     ("status", PyStr "processing")]))
       (fun _ => HttpReply 200 (Responds processing_record))
       (mkSession None false))
    = [("status", PyStr "error");
       ("message",
        PyStr "Error: Timed out waiting for response from agent")].
Proof.
  apply (X10_query_times_out_after_60_polls "list files"
           [("query_id", PyStr "query_1"); ("status", PyStr "processing")]
           (PyStr "query_1")
           (fun _ => HttpReply 200 (Responds processing_record))
           (mkSession None false)).
  - discriminate.
  - reflexivity.
  - reflexivity.
  - intros n _. exists processing_record. split_and!; reflexivity.
Defined.

(** ** The front end against the server *)

Lemma world_at_poll_reachable between w n :
  reachable w → reachable (world_at_poll between w n).
Proof.
  intros Hr. induction n as [|n IH]; simpl; by apply reachable_exec.
Qed.

Lemma world_at_poll_keeps_pending between w k n :
  (∀ m, (m ≤ n)%nat →
        forallb (fun r => negb (runs k r)) (between m) = true) →
  k ∈ (background w).*1 →
  k ∈ (background (world_at_poll between w n)).*1.
Proof.
  intros Hq Hk. induction n as [|n IH]; simpl.
  - apply exec_keeps_pending; [apply Hq; lia|done].
  - apply exec_keeps_pending; [apply Hq; lia|].
    apply IH. intros m Hm. apply Hq. lia.
Qed.

Lemma exec_keeps_keys trace w k :
  registry_inv w →
  is_Some (active_tasks w !! k) → is_Some (active_tasks (exec trace w) !! k).
Proof. intros Hinv Hk. apply exec_keys; [done|]. by left. Qed.

(** What the server answers to the polls of a query it has accepted: at
    every poll, the record of the query, in one of its three shapes. *)
Lemma world_at_poll_record user_query between w n :
  reachable w →
  ∃ record,
    active_tasks
      (world_at_poll between (snd (create_query user_query w)) n)
      !! fresh_query_id (active_tasks w) = Some record ∧
    get_result (fresh_query_id (active_tasks w))
      (world_at_poll between (snd (create_query user_query w)) n) = record ∧
    task_record record.
Proof.
  intros Hr.
  assert (reachable (snd (create_query user_query w))) as Hr1
    by apply (reachable_step (PostQuery user_query) w Hr).
  pose proof (world_at_poll_reachable between _ n Hr1) as Hrn.
  assert (is_Some (active_tasks
            (world_at_poll between (snd (create_query user_query w)) n)
            !! fresh_query_id (active_tasks w))) as [record Hrec].
  { induction n as [|n IH]; simpl.
    - apply exec_keeps_keys; [by apply reachable_inv|].
      simpl. rewrite lookup_insert_eq. eauto.
    - apply exec_keeps_keys;
        [by apply reachable_inv, world_at_poll_reachable|].
      apply IH. by apply world_at_poll_reachable. }
  exists record. split_and!; [done| |].
  - unfold get_result. by rewrite Hrec.
  - by apply (inv_shape _ (reachable_inv _ Hrn) _ _ Hrec).
Qed.

Lemma poll_once_processing :
  Flask.poll_once (serve (Responds processing_record)) = None.
Proof. reflexivity. Qed.

Lemma poll_once_completed result :
  Flask.poll_once (serve (Responds (completed_record result)))
    = Some (Answered "success" (PyStr result)).
Proof. reflexivity. Qed.

Lemma poll_once_error message :
  Flask.poll_once (serve (Responds (error_record message)))
    = Some (Answered "error" (PyStr message)).
Proof. reflexivity. Qed.

(** The loop against a server that answers every poll with a task record:
    it returns at the first poll that finds a terminal record, with that
    record's result, and times out when there is none. *)
Lemma poll_for_result_served retries :
  ∀ start query_id (records : nat → pydict),
    (∀ n, task_record (records n)) →
    (∃ n,
       (n < retries)%nat ∧
       (∀ m, (m < n)%nat → records (start + m) = processing_record) ∧
       ((∃ result,
           records (start + n) = completed_record result ∧
           fst (Flask.poll_for_result retries start query_id
                  (fun n => serve (Responds (records n))))
             = Answered "success" (PyStr result)) ∨
        (∃ message,
           records (start + n) = error_record message ∧
           fst (Flask.poll_for_result retries start query_id
                  (fun n => serve (Responds (records n))))
             = Answered "error" (PyStr message))) ∧
       length (filter is_get_result
                 (snd (Flask.poll_for_result retries start query_id
                         (fun n => serve (Responds (records n))))))
         = S n) ∨
    ((∀ m, (m < retries)%nat → records (start + m) = processing_record) ∧
     Flask.poll_for_result retries start query_id
       (fun n => serve (Responds (records n)))
       = (Answered "error"
            (PyStr "Error: Timed out waiting for response from agent"),
          concat (replicate retries [SentGetResult query_id; Slept]))).
Proof.
  induction retries as [|retries IH]; intros start query_id records Hrec.
  - right. split; [intros m Hm; lia|done].
  - cbn [Flask.poll_for_result].
    pose proof (Hrec start) as Hs.
    inversion Hs as [Heq|result Heq|message Heq].
    + rewrite poll_once_processing.
      destruct (IH (S start) query_id records Hrec)
        as [(n & Hn & Hbefore & Hat & Hlen)|[Hall Hto]].
      * left. exists (S n). split_and!.
        -- lia.
        -- intros [|m] Hm; [by rewrite Nat.add_0_r|].
           replace (start + S m) with (S start + m) by lia.
           apply Hbefore. lia.
        -- replace (start + S n) with (S start + n) by lia.
           destruct (Flask.poll_for_result retries (S start) query_id _)
             as [a evs].
           exact Hat.
        -- destruct (Flask.poll_for_result retries (S start) query_id _)
             as [a evs].
           simpl in *. rewrite filter_cons. simpl. by rewrite Hlen.
      * right. split.
        -- intros [|m] Hm; [by rewrite Nat.add_0_r|].
           replace (start + S m) with (S start + m) by lia.
           apply Hall. lia.
        -- by rewrite Hto.
    + rewrite poll_once_completed. left. exists 0. split_and!.
      * lia.
      * intros m Hm. lia.
      * left. exists result. by rewrite Nat.add_0_r.
      * done.
    + rewrite poll_once_error. left. exists 0. split_and!.
      * lia.
      * intros m Hm. lia.
      * right. exists message. by rewrite Nat.add_0_r.
      * done.
Qed.

Lemma chat_polls user_query between w s status message :
  user_query ≠ "" →
  fst (Flask.poll_for_result Flask.max_retries 0
         (PyStr (fresh_query_id (active_tasks w)))
         (fun n =>
            serve (Responds
                     (get_result (fresh_query_id (active_tasks w))
                        (world_at_poll between
                           (snd (create_query user_query w)) n)))))
    = Answered status message →
  response_body (chat user_query between w s)
    = [("status", PyStr status); ("message", message)] ∧
  events (chat user_query between w s)
    = SentPostQuery user_query
      :: snd (Flask.poll_for_result Flask.max_retries 0
                (PyStr (fresh_query_id (active_tasks w)))
                (fun n =>
                   serve (Responds
                            (get_result (fresh_query_id (active_tasks w))
                               (world_at_poll between
                                  (snd (create_query user_query w)) n))))).
Proof.
  intros Hne Hfst. unfold chat, Flask.query, Flask.send_and_poll.
  apply String.eqb_neq in Hne. rewrite Hne.
  cbn [serve create_query fst negb Nat.eqb dict_get String.eqb Ascii.eqb
       Bool.eqb from_option id py_truthy].
  change (String.eqb (fresh_query_id (active_tasks w)) "") with false.
  cbn [negb].
  destruct (Flask.poll_for_result _ _ _ _) as [a evs].
  simpl in Hfst. subst a. done.
Qed.

(** ** X11 *)

(** X11: when the front end's [query] talks to the API server in a
    reachable state, it never finds its identifier missing: every poll is
    answered with the record of the query.  It answers with the result of
    the first poll that finds the record [completed] (as ["success"]) or
    [error] (as ["error"], with the record's message), after that many
    polls; when the record is [processing] at all 60 polls it answers with
    the time-out error. *)
Theorem X11_chat_answers_from_the_record user_query between w s :
  reachable w →
  user_query ≠ "" →
  (∃ n,
     (n < 60)%nat ∧
     (∀ m, (m < n)%nat →
           active_tasks
             (world_at_poll between (snd (create_query user_query w)) m)
             !! fresh_query_id (active_tasks w) = Some processing_record) ∧
     ((∃ result,
         active_tasks
           (world_at_poll between (snd (create_query user_query w)) n)
           !! fresh_query_id (active_tasks w)
           = Some (completed_record result) ∧
         response_body (chat user_query between w s)
           = [("status", PyStr "success"); ("message", PyStr result)]) ∨
      (∃ message,
         active_tasks
           (world_at_poll between (snd (create_query user_query w)) n)
           !! fresh_query_id (active_tasks w)
           = Some (error_record message) ∧
         response_body (chat user_query between w s)
           = [("status", PyStr "error"); ("message", PyStr message)])) ∧
     length (filter is_get_result (events (chat user_query between w s)))
       = S n) ∨
  ((∀ m, (m < 60)%nat →
         active_tasks
           (world_at_poll between (snd (create_query user_query w)) m)
           !! fresh_query_id (active_tasks w) = Some processing_record) ∧
   response_body (chat user_query between w s)
     = [("status", PyStr "error");
        ("message",
         PyStr "Error: Timed out waiting for response from agent")] ∧
   length (filter is_get_result (events (chat user_query between w s)))
     = 60).
Proof.
  intros Hreach Hne.
  set (qid := fresh_query_id (active_tasks w)).
  set (w1 := snd (create_query user_query w)).
  set (records := fun n => get_result qid (world_at_poll between w1 n)).
  assert (∀ n, task_record (records n)) as Htask.
  { intros n.
    destruct (world_at_poll_record user_query between w n Hreach)
      as (record & _ & Hget & Ht).
    unfold records, qid, w1. by rewrite Hget. }
  assert (∀ n record, records n = record →
            active_tasks (world_at_poll between w1 n) !! qid = Some record)
    as Hlook.
  { intros n record <-.
    destruct (world_at_poll_record user_query between w n Hreach)
      as (record & Hl & Hget & _).
    unfold records, qid, w1. by rewrite Hget. }
  destruct (poll_for_result_served Flask.max_retries 0 (PyStr qid) records
              Htask) as [(n & Hn & Hbefore & Hat & Hlen)|[Hall Hto]].
  - left. exists n. split_and!.
    + exact Hn.
    + intros m Hm. apply Hlook. by apply Hbefore.
    + destruct Hat as [(result & Hr & Hfst)|(message & Hr & Hfst)].
      * left. exists result. split; [by apply Hlook|].
        by apply (chat_polls user_query between w s _ _ Hne Hfst).
      * right. exists message. split; [by apply Hlook|].
        by apply (chat_polls user_query between w s _ _ Hne Hfst).
    + assert (∃ status message,
                fst (Flask.poll_for_result Flask.max_retries 0 (PyStr qid)
                       (fun n => serve (Responds (records n))))
                  = Answered status message) as (status & message & Hfst).
      { destruct Hat as [(? & _ & ->)|(? & _ & ->)]; eauto. }
      destruct (chat_polls user_query between w s _ _ Hne Hfst) as [_ ->].
      rewrite filter_cons. simpl. exact Hlen.
  - right.
    assert (fst (Flask.poll_for_result Flask.max_retries 0 (PyStr qid)
                   (fun n => serve (Responds (records n))))
            = Answered "error"
                (PyStr "Error: Timed out waiting for response from agent"))
      as Hfst by by rewrite Hto.
    assert (events (chat user_query between w s)
            = SentPostQuery user_query
              :: snd (Flask.poll_for_result Flask.max_retries 0 (PyStr qid)
                        (fun n => serve (Responds (records n))))) as He
      by apply (chat_polls user_query between w s _ _ Hne Hfst).
    destruct (chat_polls user_query between w s _ _ Hne Hfst) as [-> _].
    split_and!; [|done|].
    + intros m Hm. apply Hlook. by apply Hall.
    + rewrite He, Hto. vm_compute. reflexivity.
Qed.

Example chat_third_poll :
  response_body (chat "list files" third_poll_schedule fresh_world
                   (mkSession None false))
    = [("status", PyStr "success"); ("message", PyStr "a.txt")] ∧
  length (filter is_get_result
            (events (chat "list files" third_poll_schedule fresh_world
                       (mkSession None false)))) = 3.
Proof. vm_compute. done. Qed.

Lemma X11_witness :
  ∃ polls,
    (polls ≤ 60)%nat ∧
    length (filter is_get_result
              (events (chat "list files" third_poll_schedule fresh_world
                         (mkSession None false)))) = polls.
Proof.
  destruct (X11_chat_answers_from_the_record "list files"
              third_poll_schedule fresh_world (mkSession None false)
              fresh_world_reachable ltac:(discriminate))
    as [(n & Hn & _ & _ & Hlen)|(_ & _ & Hlen)].
  - exists (S n). split; [lia|exact Hlen].
  - exists 60. split; [lia|exact Hlen].
Defined.

(** ** X12 *)

(** X12: when the server does not get to the background call of the query
    during the 60 polls, the front end answers with the time-out error
    after 60 polls and 60 sleeps, and the polling has changed nothing on
    the server: at the last poll the record is still [processing] and its
    call is still scheduled. *)
Theorem X12_chat_time_out_leaves_the_task_processing
    user_query between w s :
  reachable w →
  user_query ≠ "" →
  (∀ n, (n < 60)%nat →
        forallb (fun r => negb (runs (fresh_query_id (active_tasks w)) r))
                (between n) = true) →
  response_body (chat user_query between w s)
    = [("status", PyStr "error");
       ("message",
        PyStr "Error: Timed out waiting for response from agent")] ∧
  events (chat user_query between w s)
    = SentPostQuery user_query
      :: concat (replicate 60
                   [SentGetResult (PyStr (fresh_query_id (active_tasks w)));
                    Slept]) ∧
  active_tasks (world_at_poll between (snd (create_query user_query w)) 59)
    !! fresh_query_id (active_tasks w) = Some processing_record ∧
  fresh_query_id (active_tasks w)
    ∈ (background
         (world_at_poll between (snd (create_query user_query w)) 59)).*1.
Proof.
  intros Hreach Hne Hquiet.
  assert (reachable (snd (create_query user_query w))) as Hr1
    by apply (reachable_step (PostQuery user_query) w Hreach).
  assert (∀ n, (n < 60)%nat →
            fresh_query_id (active_tasks w)
              ∈ (background
                   (world_at_poll between
                      (snd (create_query user_query w)) n)).*1) as Hpend.
  { intros n Hn. apply world_at_poll_keeps_pending.
    - intros m Hm. apply Hquiet. lia.
    - simpl. rewrite fmap_app, elem_of_app. right. apply list_elem_of_here. }
  assert (∀ n, (n < 60)%nat →
            active_tasks
              (world_at_poll between (snd (create_query user_query w)) n)
              !! fresh_query_id (active_tasks w) = Some processing_record)
    as Hproc.
  { intros n Hn. apply inv_pending; [|by apply Hpend].
    by apply reachable_inv, world_at_poll_reachable. }
  assert (Flask.poll_for_result Flask.max_retries 0
            (PyStr (fresh_query_id (active_tasks w)))
            (fun n =>
               serve (Responds
                        (get_result (fresh_query_id (active_tasks w))
                           (world_at_poll between
                              (snd (create_query user_query w)) n))))
          = (Answered "error"
               (PyStr "Error: Timed out waiting for response from agent"),
             concat (replicate Flask.max_retries
                       [SentGetResult
                          (PyStr (fresh_query_id (active_tasks w)));
                        Slept]))) as Hto.
  { apply poll_for_result_timeout. intros n Hn. cbn [Nat.add].
    unfold get_result. rewrite Hproc by exact Hn.
    apply poll_once_processing. }
  destruct (chat_polls user_query between w s "error"
              (PyStr "Error: Timed out waiting for response from agent")
              Hne) as [Hb He]; [by rewrite Hto|].
  split_and!; [done| |apply Hproc; lia|apply Hpend; lia].
  by rewrite He, Hto.
Qed.

Lemma X12_witness :
  active_tasks
    (world_at_poll busy_schedule
       (snd (create_query "list files" fresh_world)) 59)
    !! "query_1" = Some processing_record.
Proof.
  apply (X12_chat_time_out_leaves_the_task_processing "list files"
           busy_schedule fresh_world (mkSession None false)).
  - apply fresh_world_reachable.
  - discriminate.
  - intros n _. reflexivity.
Defined.

(** ** X13 *)

Lemma issued_sequence trace w :
  registry_inv w →
  issued trace w
    = map query_id_of
          (seq (size (active_tasks w) + 1)
               (length (filter is_post_query trace))).
Proof.
  revert w. induction trace as [|r trace IH]; intros w Hinv; [done|].
  cbn [issued]. rewrite IH by by apply step_inv.
  rewrite step_size by done. rewrite filter_cons.
  destruct r; simpl; try (by rewrite Nat.add_0_r).
  do 3 f_equal. lia.
Qed.

(** X13: the identifiers handed out since the module was loaded are
    [query_1], [query_2], ... in this order, one per POST /query, whatever
    other requests and background runs come in between. *)
Theorem X13_identifiers_count_up w0 trace :
  booted w0 →
  issued trace w0
    = map (fun n => "query_" +:+ pretty n)
          (seq 1 (length (filter is_post_query trace))).
Proof.
  intros Hboot. rewrite issued_sequence by by apply booted_inv.
  destruct Hboot as [-> _]. by rewrite map_size_empty.
Qed.

Lemma X13_witness :
  issued [PostQuery "first"; GetResult "query_1"; PostQuery "second";
          RunBackground "query_1" (mkAgentRun (Escapes "boom") None);
          PostQuery "third"]
         fresh_world
    = ["query_1"; "query_2"; "query_3"].
Proof.
  apply (X13_identifiers_count_up fresh_world
           [PostQuery "first"; GetResult "query_1"; PostQuery "second";
            RunBackground "query_1" (mkAgentRun (Escapes "boom") None);
            PostQuery "third"]).
  apply fresh_world_booted.
Defined.

(** ** X14 *)

Lemma reset_workspace_outcome os w :
  (fst (reset_workspace os w) = reset_success (WORKSPACE_DIR w) ∧
   workspace (snd (reset_workspace os w)) = Some (Dir [])) ∨
  (∃ msg, fst (reset_workspace os w) = reset_error msg).
Proof.
  unfold reset_workspace.
  destruct (workspace w) as [[|entries]|]; simpl.
  - right. eauto.
  - destruct (rmtree_result os) as [|msg residue]; simpl; [|right; eauto].
    destruct (makedirs_result os) as [|msg residue]; simpl;
      [left; done|right; eauto].
  - destruct (makedirs_result os) as [|msg residue]; simpl;
      [left; done|right; eauto].
Qed.

(** X14: the front end's [reset_workspace] passes the body of the API's
    [reset_workspace] through unchanged.  Whatever else the HTTP call does
    (connection refused, another exception, a status other than 200, a
    body that is not JSON), the browser still gets a body
    [{status, message}] with status ["success"] or ["error"], and
    ["success"] only when the server's workspace is an empty directory
    afterwards. *)
Theorem X14_front_end_reset_answers_status_and_message os w reply :
  (∀ data, reply = HttpReply 200 (Responds data) →
           data = fst (reset_workspace os w)) →
  Flask.reset_workspace (serve (Responds (fst (reset_workspace os w))))
    = fst (reset_workspace os w) ∧
  ∃ status message,
    Flask.reset_workspace reply
      = [("status", PyStr status); ("message", PyStr message)] ∧
    (status = "success" ∨ status = "error") ∧
    (status = "success" →
     workspace (snd (reset_workspace os w)) = Some (Dir [])).
Proof.
  intros Hserved. split; [done|].
  unfold Flask.reset_workspace.
  destruct reply as [code [data|msg]| |msg].
  - destruct (Nat.eqb_spec code 200) as [->|Hc].
    + rewrite (Hserved data eq_refl).
      destruct (reset_workspace_outcome os w) as [[-> Hws]|[msg ->]].
      * eexists "success", _. split_and!; [done|by left|done].
      * eexists "error", _. split_and!; [done|by right|done].
    + eexists "error", _. split_and!; [done|by right|done].
  - destruct (Nat.eqb code 200);
      eexists "error", _; (split_and!; [done|by right|done]).
  - eexists "error", _. split_and!; [done|by right|done].
  - eexists "error", _. split_and!; [done|by right|done].
Qed.

Lemma X14_witness :
  Flask.reset_workspace
    (serve (Responds
              (fst (reset_workspace (mkOsRun OsDone OsDone)
                      (set_workspace (Some (Dir listing_one))
                         fresh_world)))))
    = fst (reset_workspace (mkOsRun OsDone OsDone)
             (set_workspace (Some (Dir listing_one)) fresh_world)).
Proof.
  apply (X14_front_end_reset_answers_status_and_message
           (mkOsRun OsDone OsDone)
           (set_workspace (Some (Dir listing_one)) fresh_world)
           (serve (Responds
                     (fst (reset_workspace (mkOsRun OsDone OsDone)
                             (set_workspace (Some (Dir listing_one))
                                fresh_world)))))).
  intros data [= <-]. reflexivity.
Defined.

(** ** X15 *)

(** X15: when the POST of [query] fails in any way (connection refused,
    another exception, a status other than 200, a body that is not JSON, a
    body without a usable [query_id]), [query] sends no poll at all and
    answers with status ["error"]. *)
Theorem X15_failed_post_is_not_polled user_query post_reply poll_reply s :
  user_query ≠ "" →
  (∀ data query_id,
     post_reply = HttpReply 200 (Responds data) →
     dict_get "query_id" data = Some query_id →
     py_truthy query_id = false) →
  events (Flask.query user_query post_reply poll_reply s)
    = [SentPostQuery user_query] ∧
  dict_get "status"
    (response_body (Flask.query user_query post_reply poll_reply s))
    = Some (PyStr "error").
Proof.
  intros Hne Hbad. unfold Flask.query, Flask.send_and_poll.
  apply String.eqb_neq in Hne. rewrite Hne.
  destruct post_reply as [code [data|msg]| |msg]; try done.
  - destruct (Nat.eqb_spec code 200) as [->|Hc]; [|done]. cbn [negb].
    destruct (dict_get "query_id" data) as [query_id|] eqn:E; [|done].
    cbn [from_option id]. by rewrite (Hbad data query_id eq_refl E).
  - by destruct (Nat.eqb code 200).
Qed.

Lemma X15_witness :
  events (Flask.query "list files" (HttpReply 503 (Escapes "not JSON"))
            (fun _ => HttpConnectionError) (mkSession None false))
    = [SentPostQuery "list files"].
Proof.
  apply (X15_failed_post_is_not_polled "list files"
           (HttpReply 503 (Escapes "not JSON"))
           (fun _ => HttpConnectionError) (mkSession None false)).
  - discriminate.
  - intros data query_id [=].
Defined.

(** ** X16 *)

(** X16: the front end's [workspace_info] never fails.  It passes the body
    of a status-200 JSON reply through unchanged and answers every other
    outcome of the HTTP call with a body holding the single key [error];
    in front of the API this is the API's body, or the status-500 error
    when the API's handler lets an exception escape (a regular file at the
    workspace path). *)
Theorem X16_front_end_workspace_info_passes_through w reply :
  Flask.workspace_info (serve (workspace_info w))
    = match workspace_info w with
      | Responds body => body
      | Escapes _ => [("error", PyStr "Server returned status code 500")]
      end ∧
  ((∃ body, reply = HttpReply 200 (Responds body) ∧
            Flask.workspace_info reply = body) ∨
   (∃ msg, Flask.workspace_info reply = [("error", PyStr msg)])).
Proof.
  split.
  - by destruct (workspace_info w).
  - unfold Flask.workspace_info.
    destruct reply as [code [body|msg]| |msg]; [| |right; eauto..].
    + destruct (Nat.eqb_spec code 200) as [->|Hc]; [left|right]; eauto.
    + destruct (Nat.eqb code 200); right; eauto.
Qed.

(** ** X17 *)

Lemma query_history user_query post_reply poll_reply s :
  user_query ≠ "" →
  ∃ message,
    dict_get "message"
      (response_body (Flask.query user_query post_reply poll_reply s))
      = Some message ∧
    messages (session_after (Flask.query user_query post_reply poll_reply s))
      = Some (default [] (messages s)
              ++ [chat_message "user" (PyStr user_query);
                  chat_message "assistant" message]).
Proof.
  intros Hne. unfold Flask.query. apply String.eqb_neq in Hne. rewrite Hne.
  destruct (Flask.send_and_poll user_query post_reply poll_reply) as [a evs].
  assert (∀ message,
            messages (set_modified
                        (append_message (chat_message "assistant" message)
                           (append_message
                              (chat_message "user" (PyStr user_query))
                              (ensure_messages s))))
            = Some (default [] (messages s)
                    ++ [chat_message "user" (PyStr user_query);
                        chat_message "assistant" message])) as Hmsg.
  { intros message. unfold ensure_messages.
    destruct (messages s) as [l|] eqn:E; simpl; rewrite ?E; simpl;
      [by rewrite <- app_assoc|done]. }
  destruct a as [status message| |msg]; eexists; split; try apply Hmsg; done.
Qed.

(** X17: after [clear_chat], which answers [{"status": "success"}] and
    empties the history whatever it held, the next query leaves a history
    of exactly two messages: the user's query and the assistant's answer
    that is also sent to the browser. *)
Theorem X17_clear_chat_starts_a_new_history
    user_query post_reply poll_reply s :
  user_query ≠ "" →
  Flask.clear_chat s
    = ([("status", PyStr "success")], mkSession (Some []) true) ∧
  ∃ message,
    dict_get "message"
      (response_body
         (Flask.query user_query post_reply poll_reply
            (snd (Flask.clear_chat s))))
      = Some message ∧
    messages
      (session_after
         (Flask.query user_query post_reply poll_reply
            (snd (Flask.clear_chat s))))
      = Some [chat_message "user" (PyStr user_query);
              chat_message "assistant" message].
Proof.
  intros Hne. split; [done|].
  destruct (query_history user_query post_reply poll_reply
              (snd (Flask.clear_chat s)) Hne) as (message & Hb & Hm).
  exists message. split; [done|]. exact Hm.
Qed.

Lemma X17_witness :
  ∃ message,
    dict_get "message"
      (response_body
         (Flask.query "list files" HttpConnectionError
            (fun _ => HttpConnectionError)
            (snd (Flask.clear_chat
                    (mkSession (Some [chat_message "user" (PyStr "old")])
                               false)))))
      = Some message ∧
    messages
      (session_after
         (Flask.query "list files" HttpConnectionError
            (fun _ => HttpConnectionError)
            (snd (Flask.clear_chat
                    (mkSession (Some [chat_message "user" (PyStr "old")])
                               false)))))
      = Some [chat_message "user" (PyStr "list files");
              chat_message "assistant" message].
Proof.
  apply (X17_clear_chat_starts_a_new_history "list files"
           HttpConnectionError (fun _ => HttpConnectionError)
           (mkSession (Some [chat_message "user" (PyStr "old")]) false)).
  discriminate.
Defined.

(** ** The MCP client *)

Lemma call_tool_sent reply c :
  snd (MCP.call_tool reply c) = MCP.session c.
Proof. unfold MCP.call_tool. by destruct (MCP.session c). Qed.

Lemma tool_calls_of_app calls1 calls2 :
  tool_calls_of (calls1 ++ calls2)
    = tool_calls_of calls1 ++ tool_calls_of calls2.
Proof.
  induction calls1 as [|[ms ts|name args] calls1 IH]; simpl; [done..|].
  by rewrite IH.
Qed.

(** When the loop over the first response gets to its end, it has sent one
    tool call and one model call per tool-use block, in the order of the
    blocks, and has added two messages per block. *)
Lemma process_content_sent content :
  ∀ claude tool_reply c l l',
    MCP.session c = true →
    MCP.process_content content claude tool_reply c l = (None, l') →
    ∃ extra,
      MCP.sent l' = MCP.sent l ++ extra ∧
      tool_calls_of extra = requested_tools content ∧
      length (filter is_model_call extra)
        = length (filter is_tool_use content) ∧
      length (MCP.messages l')
        = length (MCP.messages l) + 2 * length (filter is_tool_use content) ∧
      follow_ups tool_reply c (MCP.tool_calls l) (MCP.messages l) content
                 extra.
Proof.
  induction content as [|b content IH]; intros claude tool_reply c l l' Hs.
  - intros [= <-]. exists []. rewrite app_nil_r.
    split_and!; [done..|constructor].
  - destruct b as [text|id name args|]; cbn [MCP.process_content].
    + intros H. destruct (IH _ _ _ _ _ Hs H) as (extra & ? & ? & ? & ? & ?).
      exists extra. split_and!; [done..|by constructor].
    + pose proof (call_tool_sent (tool_reply (MCP.tool_calls l)) c) as Hsent.
      destruct (MCP.call_tool (tool_reply (MCP.tool_calls l)) c)
        as [[result|e] was_sent] eqn:Hcall; [|done].
      simpl in Hsent. rewrite Hs in Hsent. subst was_sent.
      destruct (claude (MCP.model_calls l)) as [response|e]; [|done].
      intros H.
      destruct (IH _ _ _ _ _ Hs H) as (extra & He & Ht & Hm & Hl & Hf).
      cbn [MCP.sent MCP.messages MCP.tool_calls] in He, Hl, Hf.
      exists (MCP.ToolCall name args
              :: MCP.ModelCall
                   (MCP.messages l
                    ++ [MCP.tool_use_message id name args;
                        MCP.tool_result_message id
                          (default (PyStr "No content in response")
                                   (dict_get "content" result))])
                   None
              :: extra).
      split_and!.
      * rewrite He. by rewrite <- !app_assoc.
      * simpl. by rewrite Ht.
      * rewrite !filter_cons. simpl. by rewrite Hm.
      * rewrite Hl, length_app, filter_cons. simpl. lia.
      * apply FollowTool; [by rewrite Hcall|done].
    + intros H. destruct (IH _ _ _ _ _ Hs H) as (extra & ? & ? & ? & ? & ?).
      exists extra. split_and!; [done..|by constructor].
Qed.

(** ** X18 *)

(** X18: [connect] on a client without a session either returns the tools
    of the server, with the session open and [self.tools] set to what it
    returns, or raises, with the session it had opened closed again,
    [self.session] cleared and [self.tools] untouched.  It returns exactly
    when both exchanges are answered with status 200 and a JSON object of
    the expected [type]; in neither case is a session left behind
    unclosed. *)
Theorem X18_connect_opens_or_cleans_up initialize_reply list_tools_reply c :
  MCP.session c = false →
  MCP.opened c = MCP.closed c →
  (∃ first data,
     MCP.exchange initialize_reply MCP.FailedToInitialize "initialize_result"
       = MCP.Return first ∧
     MCP.exchange list_tools_reply MCP.FailedToListTools "list_tools_result"
       = MCP.Return data ∧
     fst (MCP.connect initialize_reply list_tools_reply c)
       = MCP.Return (default (PyList []) (dict_get "tools" data)) ∧
     MCP.session (snd (MCP.connect initialize_reply list_tools_reply c))
       = true ∧
     MCP.tools (snd (MCP.connect initialize_reply list_tools_reply c))
       = default (PyList []) (dict_get "tools" data) ∧
     MCP.opened (snd (MCP.connect initialize_reply list_tools_reply c))
       = S (MCP.closed (snd (MCP.connect initialize_reply list_tools_reply
                               c)))) ∨
  (∃ e,
     (MCP.exchange initialize_reply MCP.FailedToInitialize
        "initialize_result" = MCP.Raise e ∨
      MCP.exchange list_tools_reply MCP.FailedToListTools
        "list_tools_result" = MCP.Raise e) ∧
     fst (MCP.connect initialize_reply list_tools_reply c) = MCP.Raise e ∧
     MCP.session (snd (MCP.connect initialize_reply list_tools_reply c))
       = false ∧
     MCP.tools (snd (MCP.connect initialize_reply list_tools_reply c))
       = MCP.tools c ∧
     MCP.opened (snd (MCP.connect initialize_reply list_tools_reply c))
       = MCP.closed (snd (MCP.connect initialize_reply list_tools_reply c))).
Proof.
  intros Hs Hbal. unfold MCP.connect.
  destruct (MCP.exchange initialize_reply _ _) as [first|e].
  - destruct (MCP.exchange list_tools_reply _ _) as [data|e].
    + left. exists first, data. simpl. rewrite Hbal. split_and!; done.
    + right. exists e. simpl. rewrite Hbal. split_and!; auto.
  - right. exists e. simpl. rewrite Hbal. split_and!; auto.
Qed.

Lemma X18_witness :
  fst (MCP.connect ok_initialize ok_list_tools
         (MCP.init "http://localhost:8000"))
    = MCP.Return (PyList [PyDict [("name", PyStr "clone")]]).
Proof.
  destruct (X18_connect_opens_or_cleans_up ok_initialize ok_list_tools
              (MCP.init "http://localhost:8000") eq_refl eq_refl)
    as [(first & data & _ & Hd & Hr & _)|(e & [He|He] & _)].
  - injection Hd as <-. exact Hr.
  - discriminate He.
  - discriminate He.
Defined.

(** ** X19 *)

(** X19: a client without a session sends nothing: [call_tool] and
    [process_query] raise the not-connected exception before any request
    to the server or to the model.  This is the state of a new client, of a
    client whose [connect] has raised, and of a closed client; closing
    twice is the same as closing once. *)
Theorem X19_without_a_session_nothing_is_sent
    initialize_reply list_tools_reply reply query claude tool_reply c e :
  fst (MCP.connect initialize_reply list_tools_reply c) = MCP.Raise e →
  MCP.call_tool reply (snd (MCP.connect initialize_reply list_tools_reply c))
    = (MCP.Raise MCP.NotConnected, false) ∧
  MCP.process_query query claude tool_reply
    (snd (MCP.connect initialize_reply list_tools_reply c))
    = (MCP.Raise MCP.NotConnected, []) ∧
  MCP.call_tool reply (MCP.close c) = (MCP.Raise MCP.NotConnected, false) ∧
  MCP.process_query query claude tool_reply (MCP.close c)
    = (MCP.Raise MCP.NotConnected, []) ∧
  MCP.process_query query claude tool_reply (MCP.init (MCP.server_url c))
    = (MCP.Raise MCP.NotConnected, []) ∧
  MCP.close (MCP.close c) = MCP.close c.
Proof.
  intros Hfail.
  assert (MCP.session
            (snd (MCP.connect initialize_reply list_tools_reply c)) = false)
    as Hs.
  { revert Hfail. unfold MCP.connect.
    destruct (MCP.exchange initialize_reply _ _); [|done].
    by destruct (MCP.exchange list_tools_reply _ _). }
  assert (MCP.session (MCP.close c) = false) as Hc.
  { unfold MCP.close. by destruct (MCP.session c) eqn:E. }
  unfold MCP.call_tool, MCP.process_query. rewrite Hs, Hc.
  split_and!; try done.
  unfold MCP.close. by destruct (MCP.session c) eqn:E; simpl; rewrite ?E.
Qed.

Lemma X19_witness :
  MCP.process_query "list files" (fun _ => MCP.Return [])
    (fun _ => MCP.AioError "unreachable")
    (snd (MCP.connect (MCP.AioError "refused") ok_list_tools
            (MCP.init "http://localhost:8000")))
    = (MCP.Raise MCP.NotConnected, []).
Proof.
  apply (X19_without_a_session_nothing_is_sent (MCP.AioError "refused")
           ok_list_tools (MCP.AioError "unreachable") "list files"
           (fun _ => MCP.Return []) (fun _ => MCP.AioError "unreachable")
           (MCP.init "http://localhost:8000") (MCP.Other "refused")).
  reflexivity.
Defined.

(** ** X20 *)

(** X20: when [process_query] returns, it has called the model once with
    the user's message and the tool list, and then once more (without
    tools) for every tool-use block of that first response; the tools it
    has called are exactly those blocks' tools with their inputs, in the
    order of the blocks.  Each tool call is followed at once by its model
    call, whose messages are those of the call before it and the block's
    [tool_use] and [tool_result] messages.  Tool-use blocks in the later
    responses are not executed. *)
Theorem X20_process_query_calls_per_tool_use
    query claude tool_reply c text :
  MCP.session c = true →
  fst (MCP.process_query query claude tool_reply c) = MCP.Return text →
  ∃ available response later,
    MCP.available_tools (MCP.tools c) = MCP.Return available ∧
    claude 0 = MCP.Return response ∧
    snd (MCP.process_query query claude tool_reply c)
      = MCP.ModelCall
          [PyDict [("role", PyStr "user"); ("content", PyStr query)]]
          (Some available)
        :: later ∧
    tool_calls_of later = requested_tools response ∧
    length (filter is_model_call later)
      = length (filter is_tool_use response) ∧
    follow_ups tool_reply c 0
      [PyDict [("role", PyStr "user"); ("content", PyStr query)]]
      response later.
Proof.
  intros Hs. unfold MCP.process_query. rewrite Hs. cbn [negb].
  destruct (MCP.available_tools (MCP.tools c)) as [available|e]; [|done].
  destruct (claude 0) as [response|e]; [|done].
  destruct (MCP.process_content response claude tool_reply c _)
    as [[e|] l] eqn:E; [done|].
  intros _.
  destruct (process_content_sent _ _ _ _ _ _ Hs E)
    as (extra & He & Ht & Hm & _ & Hf).
  exists available, response, extra. split_and!; done.
Qed.

Lemma X20_witness :
  ∃ available response later,
    MCP.available_tools (MCP.tools connected_client)
      = MCP.Return available ∧
    (fun _ : nat => MCP.Return two_tool_response) 0 = MCP.Return response ∧
    snd (MCP.process_query "deploy" (fun _ => MCP.Return two_tool_response)
           (fun _ => MCP.AioResponse 200 (Responds "") (Responds []))
           connected_client)
      = MCP.ModelCall
          [PyDict [("role", PyStr "user"); ("content", PyStr "deploy")]]
          (Some available)
        :: later ∧
    tool_calls_of later = requested_tools response ∧
    length (filter is_model_call later)
      = length (filter is_tool_use response) ∧
    follow_ups (fun _ => MCP.AioResponse 200 (Responds "") (Responds []))
      connected_client 0
      [PyDict [("role", PyStr "user"); ("content", PyStr "deploy")]]
      response later.
Proof.
  apply (X20_process_query_calls_per_tool_use "deploy"
           (fun _ => MCP.Return two_tool_response)
           (fun _ => MCP.AioResponse 200 (Responds "") (Responds []))
           connected_client
           (join (String "010" (String "010" ""))
                 ["Cloning."; "[Called tool clone]"; "Cloning.";
                  "[Called tool build]"; "Cloning."])).
  - reflexivity.
  - vm_compute. reflexivity.
Defined.

(** ** X21 *)

Lemma process_content_no_tool_use content :
  ∀ claude tool_reply c l,
    filter is_tool_use content = [] →
    MCP.process_content content claude tool_reply c l
      = (None,
         MCP.mkLocals (MCP.messages l)
                      (MCP.final_text l ++ MCP.texts content)
                      (MCP.model_calls l) (MCP.tool_calls l) (MCP.sent l)).
Proof.
  induction content as [|b content IH]; intros claude tool_reply c l Hn.
  - simpl. rewrite app_nil_r. by destruct l.
  - destruct b as [text|id name args|]; cbn [MCP.process_content MCP.texts].
    + rewrite IH by done. simpl. by rewrite <- app_assoc.
    + rewrite filter_cons in Hn. done.
    + by rewrite IH.
Qed.

(** X21: when the first response of the model holds no tool-use block,
    [process_query] on a connected client calls the model exactly once,
    calls no tool, and returns the texts of the response's text blocks
    joined by blank lines (the empty string when there is no text
    block). *)
Theorem X21_process_query_without_tool_use
    query claude tool_reply c available response :
  MCP.session c = true →
  MCP.available_tools (MCP.tools c) = MCP.Return available →
  claude 0 = MCP.Return response →
  filter is_tool_use response = [] →
  MCP.process_query query claude tool_reply c
    = (MCP.Return (join (String "010" (String "010" ""))
                        (MCP.texts response)),
       [MCP.ModelCall
          [PyDict [("role", PyStr "user"); ("content", PyStr query)]]
          (Some available)]).
Proof.
  intros Hs Ha Hc Hn. unfold MCP.process_query.
  rewrite Hs, Ha, Hc. cbn [negb].
  by rewrite process_content_no_tool_use.
Qed.

Lemma X21_witness :
  MCP.process_query "hello"
    (fun _ => MCP.Return [MCP.TextBlock "Hi."; MCP.OtherBlock;
                          MCP.TextBlock "How can I help?"])
    (fun _ => MCP.AioError "unused") connected_client
    = (MCP.Return
         (join (String "010" (String "010" "")) ["Hi."; "How can I help?"]),
       [MCP.ModelCall
          [PyDict [("role", PyStr "user"); ("content", PyStr "hello")]]
          (Some [PyDict [("name", PyStr "clone");
                         ("description", PyNone);
                         ("input_schema", PyNone)]])]).
Proof.
  apply (X21_process_query_without_tool_use "hello"
           (fun _ => MCP.Return [MCP.TextBlock "Hi."; MCP.OtherBlock;
                                 MCP.TextBlock "How can I help?"])
           (fun _ => MCP.AioError "unused") connected_client
           [PyDict [("name", PyStr "clone"); ("description", PyNone);
                    ("input_schema", PyNone)]]
           [MCP.TextBlock "Hi."; MCP.OtherBlock;
            MCP.TextBlock "How can I help?"]).
  - reflexivity.
  - reflexivity.
  - reflexivity.
  - reflexivity.
Defined.

(** ** X22 *)

(** X22: [process_query] does not catch the exception of a tool call: when
    the tool call of the first tool-use block raises, [process_query]
    raises that exception, having sent the first model call and that one
    tool call and nothing after them. *)
Theorem X22_failing_tool_call_ends_the_query
    query claude tool_reply c available before id name args rest e :
  MCP.session c = true →
  MCP.available_tools (MCP.tools c) = MCP.Return available →
  claude 0 = MCP.Return (before ++ MCP.ToolUseBlock id name args :: rest) →
  filter is_tool_use before = [] →
  fst (MCP.call_tool (tool_reply 0) c) = MCP.Raise e →
  MCP.process_query query claude tool_reply c
    = (MCP.Raise e,
       [MCP.ModelCall
          [PyDict [("role", PyStr "user"); ("content", PyStr query)]]
          (Some available);
        MCP.ToolCall name args]).
Proof.
  intros Hs Ha Hc Hn He. unfold MCP.process_query.
  rewrite Hs, Ha, Hc. cbn [negb].
  assert (∀ l,
            MCP.tool_calls l = 0 →
            MCP.process_content
              (before ++ MCP.ToolUseBlock id name args :: rest)
              claude tool_reply c l
            = (Some e,
               MCP.mkLocals (MCP.messages l)
                 (MCP.final_text l ++ MCP.texts before)
                 (MCP.model_calls l) 1
                 (MCP.sent l ++ [MCP.ToolCall name args]))) as Hloop.
  { clear Hc. induction before as [|b before IH]; intros l Hl.
    - cbn [app MCP.process_content]. rewrite Hl.
      pose proof (call_tool_sent (tool_reply 0) c) as Hsent.
      destruct (MCP.call_tool (tool_reply 0) c) as [called was_sent].
      simpl in He, Hsent. rewrite Hs in Hsent. subst called was_sent.
      simpl. by rewrite app_nil_r.
    - destruct b as [text|id' name' args'|];
        cbn [app MCP.process_content MCP.texts].
      + rewrite IH by done. simpl. by rewrite <- app_assoc.
      + rewrite filter_cons in Hn. done.
      + by rewrite IH. }
  by rewrite Hloop.
Qed.

Lemma X22_witness :
  MCP.process_query "deploy" (fun _ => MCP.Return two_tool_response)
    (fun _ => MCP.AioResponse 500 (Responds "no such tool") (Escapes ""))
    connected_client
    = (MCP.Raise (MCP.FailedToExecuteTool "no such tool"),
       [MCP.ModelCall
          [PyDict [("role", PyStr "user"); ("content", PyStr "deploy")]]
          (Some [PyDict [("name", PyStr "clone");
                         ("description", PyNone);
                         ("input_schema", PyNone)]]);
        MCP.ToolCall "clone" (PyDict [])]).
Proof.
  apply (X22_failing_tool_call_ends_the_query "deploy"
           (fun _ => MCP.Return two_tool_response)
           (fun _ =>
              MCP.AioResponse 500 (Responds "no such tool") (Escapes ""))
           connected_client
           [PyDict [("name", PyStr "clone"); ("description", PyNone);
                    ("input_schema", PyNone)]]
           [MCP.TextBlock "Cloning."] "t1" "clone" (PyDict [])
           [MCP.OtherBlock; MCP.ToolUseBlock "t2" "build" (PyDict [])]
           (MCP.FailedToExecuteTool "no such tool")).
  - reflexivity.
  - reflexivity.
  - reflexivity.
  - reflexivity.
  - reflexivity.
Defined.
